(** * libvips / foreign/openslide.c: the OpenSlide reader

    A shallow embedding of [src/libvips/foreign/openslide.c] and the
    properties its specification states about it.

    Conventions.
    - C integers are [Z]; a conversion that can lose bits is written out
      ([wrap32] for a store into an [int32_t] or an [int]).  The data model
      is LP64: [long] has 64 bits, [int] has 32.
    - A [double] is the rational ([Q]) it stands for, and a conversion of a
      [double] to an integer type drops the fraction.  The product with the
      constant [1.5] is of an integer below [2^31], which binary64
      represents exactly.  The product of a coordinate with the downsample
      is a binary64 product: the exact product rounded to the nearest
      binary64 number, ties to even ([double_mul]); the conversion of an
      [int] to [double] is exact.  C leaves the conversion to an integer
      type of a [double] outside its range undefined; the model gives its
      integer part.
    - A C string is a [string]; a nullable [const char *] is an
      [option string].
    - A pointer to a [VipsImage] or to a [ReadSlide] is an index into the
      store of the [World]; what a callback is connected with is such an
      index, so a write through one pointer is seen through the others.
    - The functions that touch the image, the [ReadSlide] struct or the
      OpenSlide handle are written in a state and error monad over [World].
      [vips_error( ... ); return( NULL )] (or [return( -1 )]) is [fail];
      the state a failed call leaves is kept.  The calls into the host
      that fail only for lack of memory are taken to succeed.
    - OpenSlide is a [Backend]: what a slide answers.  The calls that
      open, close, read, ask for the dimensions of an associated image or
      for the error a read has left, and the buffers allocated and lines
      written, are recorded in the [trace]; the queries that only look a
      value of the slide up (layer count, layer dimensions, properties,
      names, the text of an error for a message) are not. *)

From Stdlib Require Import ZArith QArith Qround String Ascii List Lia.
From stdpp Require Import base option list strings gmap.

Local Open Scope string_scope.
Local Open Scope list_scope.
Local Open Scope Z_scope.

(** ** C integer types *)

Definition INT_MAX : Z := 2 ^ 31 - 1.
Definition LONG_MAX : Z := 2 ^ 63 - 1.
Definition LONG_MIN : Z := - 2 ^ 63.
Definition ULONG_MAX : Z := 2 ^ 64 - 1.

(** Storing an integer into a 32-bit signed object keeps the low 32 bits. *)
Definition wrap32 (z : Z) : Z := (z + 2 ^ 31) mod 2 ^ 32 - 2 ^ 31.

(** Conversion of a [double] to an integer type: the fraction is dropped. *)
Definition double_to_int (q : Q) : Z := Z.quot (Qnum q) (Z.pos (Qden q)).

(** Binary64 arithmetic rounds to nearest, ties to even.  [round_half_even
    n d] is the integer nearest to [n / d], for [0 <= n] and [0 < d]. *)
Definition round_half_even (n d : Z) : Z :=
  let q := n / d in
  match 2 * (n mod d) ?= d with
  | Lt => q
  | Gt => q + 1
  | Eq => if Z.even q then q else q + 1
  end.

(** The exponent of [n / d], for [0 < n] and [0 < d]: the [e] with
    [2^e <= n / d < 2^(e+1)]. *)
Definition binary64_exponent (n d : Z) : Z :=
  let e := Z.log2 n - Z.log2 d in
  if (if 0 <=? e then d * 2 ^ e <=? n else d <=? n * 2 ^ (- e))
  then e else e - 1.

(** The binary64 number nearest to [q]: 53 significant bits, the last of
    them of weight at least [2^-1074]. *)
Definition round_binary64 (q : Q) : Q :=
  let n := Z.abs (Qnum q) in
  let d := Z.pos (Qden q) in
  if n =? 0 then 0%Q
  else
    let e := Z.max (binary64_exponent n d - 52) (-1074) in
    let v :=
      if 0 <=? e
      then inject_Z (round_half_even n (d * 2 ^ e) * 2 ^ e)
      else Qmake (round_half_even (n * 2 ^ (- e)) d) (Z.to_pos (2 ^ (- e))) in
    if Qnum q <? 0 then Qopp v else v.

(** [x * y] on [double]s. *)
Definition double_mul (x y : Q) : Q := round_binary64 (x * y).

(** [x < y] on [double]s. *)
Definition double_lt (x y : Q) : bool :=
  Qnum x * Z.pos (Qden y) <? Qnum y * Z.pos (Qden x).

Definition VIPS_MIN (a b : Z) : Z := if a <? b then a else b.

(** ** <stdlib.h>: strtol and strtoul

    [strtol( nptr, &endp, base )] skips white space, takes an optional
    sign and the longest run of digits of the base; [endp] is what follows
    the digits, or [nptr] itself when there is no digit.  A value out of the
    range of [long] is replaced by [LONG_MAX] or [LONG_MIN]. *)

Definition isspace (c : ascii) : bool :=
  let n := Z.of_nat (nat_of_ascii c) in
  (n =? 32) || ((9 <=? n) && (n <=? 13)).

Fixpoint skip_space (s : string) : string :=
  match s with
  | String c r => if isspace c then skip_space r else s
  | EmptyString => s
  end.

Definition digit_value (c : ascii) : option Z :=
  let n := Z.of_nat (nat_of_ascii c) in
  if (48 <=? n) && (n <=? 57) then Some (n - 48)
  else if (97 <=? n) && (n <=? 122) then Some (n - 87)
  else if (65 <=? n) && (n <=? 90) then Some (n - 55)
  else None.

Definition is_digit (base : Z) (c : ascii) : bool :=
  match digit_value c with
  | Some d => d <? base
  | None => false
  end.

Fixpoint scan_digits (base acc : Z) (s : string) : Z * string :=
  match s with
  | String c r =>
      match digit_value c with
      | Some d => if d <? base then scan_digits base (acc * base + d) r
                  else (acc, s)
      | None => (acc, s)
      end
  | EmptyString => (acc, s)
  end.

Definition starts_with_digit (base : Z) (s : string) : bool :=
  match s with
  | String c _ => is_digit base c
  | EmptyString => false
  end.

Definition take_sign (s : string) : bool * string :=
  match s with
  | String "-" r => (true, r)
  | String "+" r => (false, r)
  | _ => (false, s)
  end.

(** A [0x] or [0X] before a hexadecimal digit is skipped in base 16. *)
Definition skip_prefix (base : Z) (s : string) : string :=
  match s with
  | String "0" (String x r) =>
      if (base =? 16) && (Ascii.eqb x "x" || Ascii.eqb x "X")
         && starts_with_digit 16 r
      then r else s
  | _ => s
  end.

(** The number the subject sequence denotes, before it is fitted to a type,
    and the rest of the string. *)
Definition strto_exact (nptr : string) (base : Z) : Z * string :=
  let '(neg, s1) := take_sign (skip_space nptr) in
  let s2 := skip_prefix base s1 in
  if starts_with_digit base s2 then
    let '(v, rest) := scan_digits base 0 s2 in
    (if neg then - v else v, rest)
  else (0, nptr).

Definition strtol (nptr : string) (base : Z) : Z * string :=
  let '(v, endp) := strto_exact nptr base in
  (Z.max LONG_MIN (Z.min LONG_MAX v), endp).

Definition strtoul (nptr : string) (base : Z) : Z * string :=
  let '(v, endp) := strto_exact nptr base in
  (if Z.abs v >? ULONG_MAX then ULONG_MAX else v mod 2 ^ 64, endp).

(** ** Data model *)

(** The tile size of the cache this reader puts in front of OpenSlide. *)
Definition TILE_WIDTH : Z := 256.
Definition TILE_HEIGHT : Z := 256.

(** The [ReadSlide] struct.  [osr] is the OpenSlide handle ([None] is
    [NULL]); [layer] is only meaningful when [associated] is [NULL]. *)
Record ReadSlide := mkReadSlide {
  osr : option nat;
  associated : option string;
  layer : Z;
  downsample : Q
}.

(** What [memset( rslide, 0, sizeof( *rslide ) )] leaves. *)
Definition ReadSlide_zero : ReadSlide :=
  {| osr := None; associated := None; layer := 0; downsample := 0%Q |}.

Inductive VipsBandFormat :=
  VIPS_FORMAT_UCHAR | VIPS_FORMAT_CHAR | VIPS_FORMAT_USHORT
| VIPS_FORMAT_SHORT | VIPS_FORMAT_UINT | VIPS_FORMAT_INT
| VIPS_FORMAT_FLOAT | VIPS_FORMAT_DOUBLE.

Inductive VipsCoding := VIPS_CODING_NONE | VIPS_CODING_LABQ | VIPS_CODING_RAD.

Inductive VipsInterpretation :=
  VIPS_INTERPRETATION_MULTIBAND | VIPS_INTERPRETATION_B_W
| VIPS_INTERPRETATION_RGB | VIPS_INTERPRETATION_sRGB.

Inductive VipsDemandStyle :=
  VIPS_DEMAND_STYLE_SMALLTILE | VIPS_DEMAND_STYLE_FATSTRIP
| VIPS_DEMAND_STYLE_THINSTRIP | VIPS_DEMAND_STYLE_ANY.

(** The header fields [vips_image_init_fields] sets. *)
Record ImageFields := mkImageFields {
  Xsize : Z;
  Ysize : Z;
  Bands : Z;
  BandFmt : VipsBandFormat;
  Coding : VipsCoding;
  Type_ : VipsInterpretation;
  Xres : Q;
  Yres : Q
}.

Inductive MetaValue :=
| MetaInt (i : Z)
| MetaString (s : option string).

(** The tile cache [im_tile_cache] installs on an image. *)
Record TileCache := mkTileCache {
  cache_source : nat;
  tile_width : Z;
  tile_height : Z;
  max_tiles : Z
}.

(** A [VipsImage], as far as this reader touches it.  [fields] is [None]
    until [vips_image_init_fields] runs; [close_cbs] are the [ReadSlide]
    structs [readslide_destroy_cb] is connected with on the "close"
    signal; [generate_cb] is the [ReadSlide] that [fill_region] was
    registered with by [vips_image_generate]. *)
Record VipsImage := mkVipsImage {
  fields : option ImageFields;
  meta : gmap string MetaValue;
  dhint : option VipsDemandStyle;
  close_cbs : list nat;
  generate_cb : option nat;
  tile_cache : option TileCache;
  locals : list nat
}.

Definition VipsImage_new : VipsImage :=
  {| fields := None; meta := ∅; dhint := None; close_cbs := [];
     generate_cb := None; tile_cache := None; locals := [] |}.

Record VipsRect := mkVipsRect {
  left : Z;
  top : Z;
  width : Z;
  height : Z
}.

(** A [VipsRegion]: the rectangle it holds ([valid]) and the length of a
    line of its buffer, in pixels ([VIPS_REGION_LSKIP] over the size of a
    pixel). *)
Record VipsRegion := mkVipsRegion {
  valid : VipsRect;
  lskip : Z
}.

(** The error classes of the specification, one per [vips_error] message of
    the file: "failure opening slide", "invalid slide layer",
    "invalid associated image name", "getting dimensions: ...",
    "image dimensions overflow int", and "reading region: ..." or
    "reading associated image: ...". *)
Inductive ErrorKind :=
  OpenFailure | InvalidLayer | InvalidAssociatedName
| DimensionQuery | DimensionOverflow | ReadFailure.

(** What the reader asks of OpenSlide and of the host, in order. *)
Inductive Event :=
| EvOpen (h : nat) (name : string)
| EvClose (h : nat)
| EvAssociatedDimensions (name : option string) (w h : Z)
| EvReadRegion (dest : Z) (x y : Z) (layer : Z) (w h : Z)
| EvReadAssociated (name : option string) (buf : nat)
| EvArray (buf : nat) (n : Z)
| EvGetError
| EvWriteLine (im : nat) (y : Z) (buf : nat) (offset : Z).

(** The slide behind the OpenSlide API.  A dimension of [-1] is
    OpenSlide's answer on error.  [opens name] tells whether
    [openslide_open] gives a handle.  [associated_dimensions k name] is the
    answer of the associated-image dimension query when [k] such queries
    were made before, so that a backend whose answer changes between two
    calls can be described.  [read_pixel l x y
    i j] is the pixel in column [i] and row [j] of what
    [openslide_read_region] decodes at origin [(x, y)] of layer [l];
    [region_error] and [associated_error] are the error message a read
    leaves on the handle, if any. *)
Record Backend := mkBackend {
  opens : string -> bool;
  openslide_get_layer_count : Z;
  openslide_get_layer_dimensions : Z -> Z * Z;
  openslide_get_layer_downsample : Z -> Q;
  openslide_get_associated_image_names : list string;
  associated_dimensions : nat -> option string -> Z * Z;
  openslide_get_property_names : list string;
  openslide_get_property_value : string -> option string;
  read_pixel : Z -> Z -> Z -> Z -> Z -> Z;
  region_error : Z -> Z -> Z -> Z -> Z -> option string;
  associated_error : option string -> option string
}.

Definition OPENSLIDE_PROPERTY_NAME_VENDOR : string := "openslide.vendor".
Definition OPENSLIDE_PROPERTY_NAME_BACKGROUND_COLOR : string :=
  "openslide.background-color".

(** The state the code runs in: the images and the [ReadSlide] structs
    (a pointer is an index), the handles OpenSlide has given out, the
    error a handle holds, the number of associated-image dimension queries
    made, the buffers allocated and the calls made so far. *)
Record World := mkWorld {
  images : list VipsImage;
  rslides : list ReadSlide;
  handles : nat;
  oserror : option string;
  dim_queries : nat;
  buffers : nat;
  trace : list Event
}.

Definition World_init (ims : list VipsImage) : World :=
  {| images := ims; rslides := []; handles := 0; oserror := None;
     dim_queries := 0; buffers := 0; trace := [] |}.

(** ** The state and error monad *)

Inductive result (A : Type) :=
| Ok (a : A)
| Err (e : ErrorKind).
Arguments Ok {A} a.
Arguments Err {A} e.

Definition M (A : Type) : Type := World -> result A * World.

#[global] Instance M_ret : MRet M := fun A a w => (Ok a, w).
#[global] Instance M_bind : MBind M := fun A B f m w =>
  match m w with
  | (Ok a, w') => f a w'
  | (Err e, w') => (Err e, w')
  end.

Definition fail {A} (e : ErrorKind) : M A := fun w => (Err e, w).
Definition get_world : M World := fun w => (Ok w, w).
Definition modify (f : World -> World) : M unit := fun w => (Ok tt, f w).

Definition set_images (f : list VipsImage -> list VipsImage) (w : World) :=
  {| images := f (images w); rslides := rslides w; handles := handles w;
     oserror := oserror w; dim_queries := dim_queries w;
     buffers := buffers w; trace := trace w |}.
Definition set_rslides (f : list ReadSlide -> list ReadSlide) (w : World) :=
  {| images := images w; rslides := f (rslides w); handles := handles w;
     oserror := oserror w; dim_queries := dim_queries w;
     buffers := buffers w; trace := trace w |}.
Definition set_handles (n : nat) (w : World) :=
  {| images := images w; rslides := rslides w; handles := n;
     oserror := oserror w; dim_queries := dim_queries w;
     buffers := buffers w; trace := trace w |}.
Definition set_oserror (e : option string) (w : World) :=
  {| images := images w; rslides := rslides w; handles := handles w;
     oserror := e; dim_queries := dim_queries w;
     buffers := buffers w; trace := trace w |}.
Definition set_dim_queries (n : nat) (w : World) :=
  {| images := images w; rslides := rslides w; handles := handles w;
     oserror := oserror w; dim_queries := n;
     buffers := buffers w; trace := trace w |}.
Definition set_buffers (n : nat) (w : World) :=
  {| images := images w; rslides := rslides w; handles := handles w;
     oserror := oserror w; dim_queries := dim_queries w;
     buffers := n; trace := trace w |}.
Definition emit (e : Event) (w : World) :=
  {| images := images w; rslides := rslides w; handles := handles w;
     oserror := oserror w; dim_queries := dim_queries w;
     buffers := buffers w; trace := trace w ++ [e] |}.

(** ** The host: images, metadata, buffers *)

Definition set_fields (f : option ImageFields) (im : VipsImage) :=
  {| fields := f; meta := meta im; dhint := dhint im;
     close_cbs := close_cbs im; generate_cb := generate_cb im;
     tile_cache := tile_cache im; locals := locals im |}.
Definition set_meta (k : string) (v : MetaValue) (im : VipsImage) :=
  {| fields := fields im; meta := <[k := v]> (meta im); dhint := dhint im;
     close_cbs := close_cbs im; generate_cb := generate_cb im;
     tile_cache := tile_cache im; locals := locals im |}.
Definition set_dhint (d : VipsDemandStyle) (im : VipsImage) :=
  {| fields := fields im; meta := meta im; dhint := Some d;
     close_cbs := close_cbs im; generate_cb := generate_cb im;
     tile_cache := tile_cache im; locals := locals im |}.
Definition add_close_cb (p : nat) (im : VipsImage) :=
  {| fields := fields im; meta := meta im; dhint := dhint im;
     close_cbs := close_cbs im ++ [p]; generate_cb := generate_cb im;
     tile_cache := tile_cache im; locals := locals im |}.
Definition set_generate_cb (p : nat) (im : VipsImage) :=
  {| fields := fields im; meta := meta im; dhint := dhint im;
     close_cbs := close_cbs im; generate_cb := Some p;
     tile_cache := tile_cache im; locals := locals im |}.
Definition set_tile_cache (c : TileCache) (im : VipsImage) :=
  {| fields := fields im; meta := meta im; dhint := dhint im;
     close_cbs := close_cbs im; generate_cb := generate_cb im;
     tile_cache := Some c; locals := locals im |}.
Definition add_local (i : nat) (im : VipsImage) :=
  {| fields := fields im; meta := meta im; dhint := dhint im;
     close_cbs := close_cbs im; generate_cb := generate_cb im;
     tile_cache := tile_cache im; locals := locals im ++ [i] |}.

(** Dereferencing an image or a [ReadSlide] pointer. *)
Definition image_at (w : World) (im : nat) : VipsImage :=
  default VipsImage_new (images w !! im).
Definition rslide_at (w : World) (p : nat) : ReadSlide :=
  default ReadSlide_zero (rslides w !! p).

Definition update_image (im : nat) (f : VipsImage -> VipsImage) : M unit :=
  modify (set_images (alter f im)).
Definition update_rslide (p : nat) (f : ReadSlide -> ReadSlide) : M unit :=
  modify (set_rslides (alter f p)).
Definition get_rslide (p : nat) : M ReadSlide :=
  fun w => (Ok (rslide_at w p), w).
Definition get_image (im : nat) : M VipsImage :=
  fun w => (Ok (image_at w im), w).

(** [VIPS_NEW( out, ReadSlide )] followed by the [memset]: a fresh zeroed
    struct. *)
Definition VIPS_NEW (out : nat) : M nat := fun w =>
  (Ok (length (rslides w)), set_rslides (fun l => l ++ [ReadSlide_zero]) w).

(** [g_signal_connect( out, "close", G_CALLBACK( readslide_destroy_cb ),
    rslide )]. *)
Definition g_signal_connect_close (out rslide : nat) : M unit :=
  update_image out (add_close_cb rslide).

Definition vips_image_set_string (out : nat) (k : string) (v : option string)
  : M unit := update_image out (set_meta k (MetaString v)).
Definition vips_image_set_int (out : nat) (k : string) (i : Z) : M unit :=
  update_image out (set_meta k (MetaInt i)).
Definition im_meta_set_int (out : nat) (k : string) (i : Z) : M unit :=
  update_image out (set_meta k (MetaInt i)).
Definition vips_demand_hint (out : nat) (d : VipsDemandStyle) : M unit :=
  update_image out (set_dhint d).

Definition vips_image_init_fields (out : nat) (xsize ysize bands : Z)
    (format : VipsBandFormat) (coding : VipsCoding)
    (interpretation : VipsInterpretation) (xres yres : Q) : M unit :=
  update_image out (set_fields (Some
    {| Xsize := xsize; Ysize := ysize; Bands := bands; BandFmt := format;
       Coding := coding; Type_ := interpretation;
       Xres := xres; Yres := yres |})).

(** [im_open_local( out, "cache", "p" )]: a new image, owned by [out]. *)
Definition im_open_local (out : nat) : M nat := fun w =>
  (Ok (length (images w)),
   set_images (fun l => alter (add_local (length l)) out l ++ [VipsImage_new])
     w).

Definition vips_image_pio_output (im : nat) : M unit := mret tt.
Definition vips_image_wio_output (im : nat) : M unit := mret tt.

(** [vips_image_generate( raw, NULL, fill_region, NULL, rslide, NULL )]. *)
Definition vips_image_generate (raw rslide : nat) : M unit :=
  update_image raw (set_generate_cb rslide).

(** [im_tile_cache( in, out, tile_width, tile_height, max_tiles )]; the
    last parameter is an [int]. *)
Definition im_tile_cache (raw out : nat) (tw th mx : Z) : M unit :=
  update_image out (set_tile_cache
    {| cache_source := raw; tile_width := tw; tile_height := th;
       max_tiles := mx |}).

(** [VIPS_ARRAY( out, n, uint32_t )]. *)
Definition VIPS_ARRAY (out : nat) (n : Z) : M nat := fun w =>
  (Ok (buffers w), emit (EvArray (buffers w) n) (set_buffers (S (buffers w)) w)).

Definition vips_image_write_line (out : nat) (y : Z) (buf : nat) (off : Z)
  : M unit := modify (emit (EvWriteLine out y buf off)).

(** [g_strjoinv( sep, strv )]. *)
Fixpoint g_strjoinv (sep : string) (l : list string) : string :=
  match l with
  | [] => ""
  | [s] => s
  | s :: r => s +:+ sep +:+ g_strjoinv sep r
  end.

(** [*s != 0] for a C string. *)
Definition nonempty (s : string) : bool :=
  match s with
  | EmptyString => false
  | String _ _ => true
  end.

(** Running [body] on every element of a list, in order. *)
Fixpoint for_each {A} (body : A -> M unit) (l : list A) : M unit :=
  match l with
  | [] => mret tt
  | a :: r => body a;; for_each body r
  end.

(** [for( i = start; i < bound; i += step ) body]: the loop unrolled at
    most [fuel] times. *)
Fixpoint for_loop (fuel : nat) (i bound step : Z) (body : Z -> M unit)
  : M unit :=
  match fuel with
  | O => mret tt
  | S fuel' =>
      if i <? bound then body i;; for_loop fuel' (i + step) bound step body
      else mret tt
  end.

(** [VIPS_REGION_ADDR( out, x, y )], as an offset in pixels from the start
    of the buffer of the region. *)
Definition VIPS_REGION_ADDR (out : VipsRegion) (x y : Z) : Z :=
  (y - top (valid out)) * lskip out + (x - left (valid out)).

(** ** The reader *)

Section Reader.

(** [vips_filename_split( filename, name, mode )] is not part of the file:
    it cuts [filename] into the name of the slide and the mode. *)
Variable vips_filename_split : string -> string * string.
Variable b : Backend.

(** *** Calls into OpenSlide *)

Definition openslide_open (name : string) : M (option nat) := fun w =>
  if opens b name
  then (Ok (Some (handles w)),
        emit (EvOpen (handles w) name) (set_handles (S (handles w)) w))
  else (Ok None, w).

Definition openslide_close (h : nat) : M unit := modify (emit (EvClose h)).

Definition openslide_get_associated_image_dimensions (name : option string)
  : M (Z * Z) := fun w =>
  let d := associated_dimensions b (dim_queries w) name in
  (Ok d, emit (EvAssociatedDimensions name (fst d) (snd d))
           (set_dim_queries (S (dim_queries w)) w)).

(** An error sticks to the handle: a read leaves the first one. *)
Definition raise_oserror (e : option string) (w : World) : World :=
  match oserror w with
  | Some _ => w
  | None => set_oserror e w
  end.

Definition openslide_read_region (dest x y layer w h : Z) : M unit :=
  modify (fun s =>
    raise_oserror (region_error b layer x y w h)
      (emit (EvReadRegion dest x y layer w h) s)).

Definition openslide_read_associated_image (name : option string) (buf : nat)
  : M unit :=
  modify (fun s =>
    raise_oserror (associated_error b name) (emit (EvReadAssociated name buf) s)).

Definition openslide_get_error : M (option string) := fun w =>
  (Ok (oserror w), emit EvGetError w).

(** *** vips__openslide_isslide *)

Definition vips__openslide_isslide (filename : string) : M bool :=
  osr ← openslide_open filename;
  match osr with
  | Some h =>
      let vendor :=
        openslide_get_property_value b OPENSLIDE_PROPERTY_NAME_VENDOR in
      let ok :=
        match vendor with
        | None => false
        | Some v => negb (String.eqb v "generic-tiff")
        end in
      openslide_close h;;
      mret ok
  | None => mret false
  end.

(** *** readslide_destroy_cb

    [VIPS_FREEF( openslide_close, rslide->osr )] closes the handle if there
    is one and sets the field to [NULL]. *)
Definition readslide_destroy_cb (image rslide : nat) : M unit :=
  rs ← get_rslide rslide;
  match osr rs with
  | Some h =>
      openslide_close h;;
      update_rslide rslide (fun r =>
        {| osr := None; associated := associated r; layer := layer r;
           downsample := downsample r |})
  | None => mret tt
  end.

(** The "close" signal of an image runs the handlers connected to it. *)
Definition vips_image_close (image : nat) : M unit :=
  im ← get_image image;
  for_each (readslide_destroy_cb image) (close_cbs im).

(** *** check_associated_image *)

Fixpoint strv_contains (associated : list string) (name : string) : bool :=
  match associated with
  | [] => false
  | a :: rest => if String.eqb a name then true else strv_contains rest name
  end.

Definition check_associated_image (name : string) : M unit :=
  if strv_contains (openslide_get_associated_image_names b) name
  then mret tt
  else fail InvalidAssociatedName.

(** *** readslide_new *)

Definition readslide_new (filename : string) (out : nat) : M nat :=
  rslide ← VIPS_NEW out;
  g_signal_connect_close out rslide;;
  let '(name, mode) := vips_filename_split filename in
  h ← openslide_open name;
  update_rslide rslide (fun r =>
    {| osr := h; associated := associated r; layer := layer r;
       downsample := downsample r |});;
  match h with
  | None => fail OpenFailure
  | Some _ =>
  (* Parse optional mode. *)
  let '(l, endp) := strtol mode 10 in
  update_rslide rslide (fun r =>
    {| osr := osr r; associated := associated r; layer := wrap32 l;
       downsample := downsample r |});;
  rs ← get_rslide rslide;
  (if nonempty mode && negb (nonempty endp) then
     (* Mode specifies slide layer. *)
     if (layer rs <? 0) || (layer rs >=? openslide_get_layer_count b)
     then fail InvalidLayer
     else mret tt
   else if nonempty mode then
     (* Mode specifies associated image. *)
     check_associated_image mode;;
     update_rslide rslide (fun r =>
       {| osr := osr r; associated := Some mode; layer := layer r;
          downsample := downsample r |})
   else mret tt);;
  rs ← get_rslide rslide;
  '(w, h) ←
    match associated rs with
    | Some a =>
        d ← openslide_get_associated_image_dimensions (Some a);
        vips_image_set_string out "slide-associated-image" (Some a);;
        vips_demand_hint out VIPS_DEMAND_STYLE_THINSTRIP;;
        mret d
    | None =>
        let d := openslide_get_layer_dimensions b (layer rs) in
        update_rslide rslide (fun r =>
          {| osr := osr r; associated := associated r; layer := layer r;
             downsample := openslide_get_layer_downsample b (layer rs) |});;
        vips_image_set_int out "slide-layer" (layer rs);;
        vips_demand_hint out VIPS_DEMAND_STYLE_SMALLTILE;;
        mret d
    end;
  (* This tag is used by argb2rgba() to paint fully-transparent pixels. *)
  match openslide_get_property_value b
          OPENSLIDE_PROPERTY_NAME_BACKGROUND_COLOR with
  | Some background =>
      im_meta_set_int out "background-rgb" (wrap32 (fst (strtoul background 16)))
  | None => im_meta_set_int out "background-rgb" 16777215
  end;;
  rs ← get_rslide rslide;
  if (w <? 0) || (h <? 0) || double_lt (downsample rs) 0
  then fail DimensionQuery
  else if (w >? INT_MAX) || (h >? INT_MAX)
  then fail DimensionOverflow
  else
  vips_image_init_fields out (wrap32 w) (wrap32 h) 4 VIPS_FORMAT_UCHAR
    VIPS_CODING_NONE VIPS_INTERPRETATION_RGB 1 1;;
  for_each
    (fun p => vips_image_set_string out p (openslide_get_property_value b p))
    (openslide_get_property_names b);;
  vips_image_set_string out "slide-associated-images"
    (Some (g_strjoinv ", " (openslide_get_associated_image_names b)));;
  mret rslide
  end.

(** *** vips__openslide_read_header

    The callers pass [layer] and [associated] on to [readslide_new], which
    takes the mode from the file name and has no such parameters. *)
Definition vips__openslide_read_header (filename : string) (out : nat)
    (layer : Z) (associated : option string) : M unit :=
  readslide_new filename out;;
  mret tt.

(** *** fill_region *)

Definition fill_region (out : VipsRegion) (rslide : nat) : M unit :=
  let r := valid out in
  rs ← get_rslide rslide;
  (* Fill in tile-sized chunks. *)
  for_loop (Z.to_nat (height r)) 0 (height r) TILE_HEIGHT (fun y =>
    for_loop (Z.to_nat (width r)) 0 (width r) TILE_WIDTH (fun x =>
      let w := VIPS_MIN TILE_WIDTH (width r - x) in
      let h := VIPS_MIN TILE_HEIGHT (height r - y) in
      openslide_read_region
        (VIPS_REGION_ADDR out (left r + x) (top r + y))
        (double_to_int (double_mul (inject_Z (left r + x)) (downsample rs)))
        (double_to_int (double_mul (inject_Z (top r + y)) (downsample rs)))
        (layer rs) w h));;
  error ← openslide_get_error;
  match error with
  | Some _ => fail ReadFailure
  | None => mret tt
  end.

(** *** vips__openslide_read_file *)

(** The last argument of [im_tile_cache]:
    [1.5 * (1 + raw->Xsize / TILE_WIDTH)], an [int] division, a [double]
    product and a conversion to [int]. *)
Definition tile_cache_max_tiles (xsize : Z) : Z :=
  double_to_int ((3 # 2) * inject_Z (1 + Z.quot xsize TILE_WIDTH)).

Definition image_Xsize (im : VipsImage) : Z :=
  match fields im with
  | Some f => Xsize f
  | None => 0
  end.

Definition vips__openslide_read_file (filename : string) (out : nat)
    (layer : Z) : M unit :=
  raw ← im_open_local out;
  rslide ← readslide_new filename raw;
  vips_image_pio_output raw;;
  vips_image_generate raw rslide;;
  (* Copy to out, adding a cache. Enough tiles for a complete row, plus
     50%. *)
  im ← get_image raw;
  im_tile_cache raw out TILE_WIDTH TILE_HEIGHT
    (tile_cache_max_tiles (image_Xsize im)).

(** *** vips__openslide_read_associated

    As in [vips__openslide_read_header], the name of the associated image
    is passed on to [readslide_new], which has no parameter for it: the
    struct selects what the mode of the file name says. *)

Definition vips__openslide_read_associated (filename : string) (out : nat)
    (associated_name : option string) : M unit :=
  raw ← im_open_local out;
  rslide ← readslide_new filename raw;
  rs ← get_rslide rslide;
  '(w, h) ← openslide_get_associated_image_dimensions (associated rs);
  if (w =? -1) || (h =? -1) then fail DimensionQuery
  else
  buf ← VIPS_ARRAY out (w * h);
  openslide_read_associated_image (associated rs) buf;;
  error ← openslide_get_error;
  match error with
  | Some _ => fail ReadFailure
  | None =>
      vips_image_wio_output out;;
      for_loop (Z.to_nat h) 0 h 1 (fun y =>
        vips_image_write_line out y buf (y * w))
  end.

End Reader.

(** ** Slides and file names to run the reader on *)

(** The addressing scheme [path] or [path:mode]: the mode is what follows
    the last colon. *)
Fixpoint split_at_last_colon (s : string) : string * option string :=
  match s with
  | EmptyString => ("", None)
  | String c r =>
      match split_at_last_colon r with
      | (pre, Some mode) => (String c pre, Some mode)
      | (pre, None) =>
          if Ascii.eqb c ":" then ("", Some pre) else (String c pre, None)
      end
  end.

Definition filename_split (filename : string) : string * string :=
  match split_at_last_colon filename with
  | (name, Some mode) => (name, mode)
  | (name, None) => (name, "")
  end.

(** A slide with [count] layers and three associated images; the layer and
    associated-image dimensions are left open. *)
Definition slide (count : Z) (ldims : Z -> Z * Z)
    (adims : nat -> option string -> Z * Z) : Backend :=
  {| opens := fun name => String.eqb name "slide.svs";
     openslide_get_layer_count := count;
     openslide_get_layer_dimensions := ldims;
     openslide_get_layer_downsample := fun l =>
       if l =? 0 then 1%Q else if l =? 1 then 4%Q
       else if l =? 2 then 16%Q else (-1)%Q;
     openslide_get_associated_image_names := ["label"; "macro"; "thumbnail"];
     associated_dimensions := adims;
     openslide_get_property_names :=
       ["openslide.background-color"; "openslide.vendor"];
     openslide_get_property_value := fun k =>
       if String.eqb k "openslide.vendor" then Some "aperio"
       else if String.eqb k "openslide.background-color" then Some "F0F0F0"
       else None;
     read_pixel := fun l x y i j => l + 4 * ((x + i) + 65536 * (y + j));
     region_error := fun _ _ _ _ _ => None;
     associated_error := fun _ => None |}.

Definition good_layer_dimensions (l : Z) : Z * Z :=
  if l =? 0 then (2000, 1500) else if l =? 1 then (500, 375)
  else if l =? 2 then (125, 94) else (-1, -1).

Definition good_associated_dimensions (k : nat) (name : option string)
  : Z * Z :=
  match name with
  | Some n =>
      if String.eqb n "label" then (387, 463)
      else if String.eqb n "macro" then (1280, 431)
      else if String.eqb n "thumbnail" then (1024, 768)
      else (-1, -1)
  | None => (-1, -1)
  end.

Definition good_slide : Backend :=
  slide 3 good_layer_dimensions good_associated_dimensions.

(** A slide whose dimension queries fail. *)
Definition failing_slide : Backend :=
  slide 3 (fun _ => (-1, -1)) (fun _ _ => (-1, -1)).

(** A slide one tile wide. *)
Definition narrow_slide : Backend :=
  slide 1 (fun _ => (256, 256)) good_associated_dimensions.

(** The [double] nearest to 0.7. *)
Definition seven_tenths : Q := 3152519739159347 # 4503599627370496.

(** One image, not yet set up. *)
Definition one_image : World := World_init [VipsImage_new].

(** ** The vocabulary of the specification *)

(** The mode string "parses entirely as the integer [n]": it is not empty,
    and the digits [strtol] takes reach its end. *)
Definition parses_as_integer (mode : string) (n : Z) : Prop :=
  nonempty mode = true /\ strto_exact mode 10 = (n, "").

(** The mode string is not empty and does not parse entirely as an
    integer. *)
Definition names_associated (mode : string) : Prop :=
  nonempty mode = true /\ snd (strto_exact mode 10) <> "".

(** The dimension checks of [readslide_new] on a width, a height and a
    downsample. *)
Definition dimensions_known (w h : Z) (ds : Q) : Prop :=
  0 <= w /\ 0 <= h /\ double_lt ds 0 = false.
Definition dimensions_fit (w h : Z) : Prop := w <= INT_MAX /\ h <= INT_MAX.

(** The capacity the specification gives for the tile cache:
    [ceil(1.5 * ceil(imageWidth / tileEdge))]. *)
Definition capacity_spec (imageWidth tileEdge : Z) : Z :=
  Qceiling ((3 # 2) * inject_Z (Qceiling (imageWidth # Z.to_pos tileEdge))).

(** The buffer of a region, a pixel per offset, and what
    [openslide_read_region( osr, dest, x, y, layer, w, h )] does to it:
    OpenSlide is given no line length, and writes the [w * h] pixels it
    decodes one row after the other starting at [dest]. *)
Definition Buffer : Type := Z -> option Z.

Definition read_region_into (b : Backend) (dest x y layer w h : Z)
    (m : Buffer) : Buffer := fun a =>
  if (dest <=? a) && (a <? dest + w * h)
  then Some (read_pixel b layer x y ((a - dest) mod w) ((a - dest) / w))
  else m a.

Definition apply_event (b : Backend) (m : Buffer) (e : Event) : Buffer :=
  match e with
  | EvReadRegion dest x y layer w h => read_region_into b dest x y layer w h m
  | _ => m
  end.

(** The buffer after the calls of a trace. *)
Definition buffer_after (b : Backend) (tr : list Event) : Buffer :=
  fold_left (apply_event b) tr (fun _ => None).

(** One read of the whole rectangle of the region, from the same source
    origin. *)
Definition single_read (b : Backend) (out : VipsRegion) (rs : ReadSlide)
  : Buffer :=
  let r := valid out in
  read_region_into b (VIPS_REGION_ADDR out (left r) (top r))
    (double_to_int (double_mul (inject_Z (left r)) (downsample rs)))
    (double_to_int (double_mul (inject_Z (top r)) (downsample rs)))
    (layer rs) (width r) (height r) (fun _ => None).

(** The chunks of a [w] by [h] rectangle in row-major order, each given by
    its offset in the rectangle and its size. *)
Definition offsets (n : Z) (step : Z) : list Z :=
  map (fun k => step * Z.of_nat k) (seq 0 (Z.to_nat ((n + step - 1) / step))).

Definition chunk_grid (w h : Z) : list (Z * Z * Z * Z) :=
  y ← offsets h TILE_HEIGHT;
  x ← offsets w TILE_WIDTH;
  [(x, y, Z.min TILE_WIDTH (w - x), Z.min TILE_HEIGHT (h - y))].

Definition is_read_region (e : Event) : bool :=
  match e with
  | EvReadRegion _ _ _ _ _ _ => true
  | _ => false
  end.

Definition is_close (h : nat) (e : Event) : bool :=
  match e with
  | EvClose h' => Nat.eqb h h'
  | _ => false
  end.

Definition is_open (h : nat) (e : Event) : bool :=
  match e with
  | EvOpen h' _ => Nat.eqb h h'
  | _ => false
  end.

Definition is_array (e : Event) : bool :=
  match e with
  | EvArray _ _ => true
  | _ => false
  end.

(** How often the handle [h] was closed, or opened, in a trace. *)
Definition closes (h : nat) (tr : list Event) : nat :=
  length (filter (fun e => is_close h e = true) tr).
Definition opened (h : nat) (tr : list Event) : nat :=
  length (filter (fun e => is_open h e = true) tr).

(** A dimension query of an associated image that was answered with the
    "unknown" value [-1] for the width or the height. *)
Definition reports_unknown (e : Event) : Prop :=
  match e with
  | EvAssociatedDimensions _ w h => w = -1 \/ h = -1
  | _ => False
  end.

Definition is_write_line (e : Event) : bool :=
  match e with
  | EvWriteLine _ _ _ _ => true
  | _ => false
  end.

(** A slide that answers the first dimension query of an associated image
    and reports [-1] from then on. *)
Definition forgetful_slide : Backend :=
  slide 3 good_layer_dimensions (fun k name =>
    match k with
    | O => good_associated_dimensions k name
    | S _ => (-1, -1)
    end).

(** A backend whose associated-image dimension query always gives the same
    answer for the same name. *)
Definition deterministic_dimensions (b : Backend) : Prop :=
  forall k k' name,
    associated_dimensions b k name = associated_dimensions b k' name.


(** The call [fill_region] makes for a chunk of the grid. *)
Definition chunk_read (out : VipsRegion) (rs : ReadSlide)
    (c : Z * Z * Z * Z) : Event :=
  let '(x, y, w, h) := c in
  let r := valid out in
  EvReadRegion (VIPS_REGION_ADDR out (left r + x) (top r + y))
    (double_to_int (double_mul (inject_Z (left r + x)) (downsample rs)))
    (double_to_int (double_mul (inject_Z (top r + y)) (downsample rs)))
    (layer rs) w h.

(** Whether the [ReadSlide] at [p] holds the handle [h]. *)
Definition holding (h : nat) (p : nat) (w : World) : nat :=
  if decide (osr (default ReadSlide_zero (rslides w !! p)) = Some h)
  then 1%nat else 0%nat.

(** The "close" signal of an image, [n] times over. *)
Fixpoint close_times (n : nat) (image : nat) : M unit :=
  match n with
  | O => mret tt
  | S k => vips_image_close image;; close_times k image
  end.

(** A world in which no handle is in use that OpenSlide has not given out
    yet. *)
Definition handles_fresh (w : World) : Prop :=
  (forall rs h, rs ∈ rslides w -> osr rs = Some h -> (h < handles w)%nat) /\
  (forall h, (handles w <= h)%nat -> closes h (trace w) = 0%nat
                                  /\ opened h (trace w) = 0%nat).

(** Two worlds that differ at most in the trace and in the error the
    handle holds. *)
Definition same_store (w w' : World) : Prop :=
  images w' = images w /\ rslides w' = rslides w /\
  handles w' = handles w /\ dim_queries w' = dim_queries w /\
  buffers w' = buffers w.


(** The entry [readslide_new] stores for what the struct selects. *)
Definition selector_entry (rs : ReadSlide) : string * MetaValue :=
  match associated rs with
  | Some a => ("slide-associated-image", MetaString (Some a))
  | None => ("slide-layer", MetaInt (layer rs))
  end.

(** A slide whose reads fail. *)
Definition unreadable_slide : Backend :=
  {| opens := opens good_slide;
     openslide_get_layer_count := openslide_get_layer_count good_slide;
     openslide_get_layer_dimensions :=
       openslide_get_layer_dimensions good_slide;
     openslide_get_layer_downsample :=
       openslide_get_layer_downsample good_slide;
     openslide_get_associated_image_names :=
       openslide_get_associated_image_names good_slide;
     associated_dimensions := associated_dimensions good_slide;
     openslide_get_property_names := openslide_get_property_names good_slide;
     openslide_get_property_value := openslide_get_property_value good_slide;
     read_pixel := read_pixel good_slide;
     region_error := fun _ _ _ _ _ => Some "cannot read";
     associated_error := fun _ => Some "cannot read" |}.

(** A region of one tile at the tile (1, 2) of the image. *)
Definition region_tile : VipsRegion :=
  {| valid := {| left := 256; top := 512; width := 256; height := 200 |};
     lskip := 256 |}.

(** The calls other than the query of the error text. *)
Definition is_get_error (e : Event) : bool :=
  match e with
  | EvGetError => true
  | _ => false
  end.

(** The lines [0 .. h - 1] of an image, in order. *)
Definition lines (h : Z) : list Z := map Z.of_nat (seq 0 (Z.to_nat h)).

(** The value [readslide_new] stores under "background-rgb". *)
Definition background_rgb (b : Backend) : Z :=
  match openslide_get_property_value b
          OPENSLIDE_PROPERTY_NAME_BACKGROUND_COLOR with
  | Some background => wrap32 (fst (strtoul background 16))
  | None => 16777215
  end.

(** The postcondition [Q] holds of what [m] returns and leaves from [w]. *)
Definition wp {A} (m : M A) (Q : result A -> World -> Prop) (w : World)
  : Prop := Q (m w).1 (m w).2.

(** * Properties *)

(** ** Running the monad symbolically *)

Lemma alter_snoc {A} (f : A -> A) (l : list A) (x : A) :
  alter f (length l) (l ++ [x]) = l ++ [f x].
Proof. induction l; simpl; [done|]. f_equal. apply IHl. Qed.

Lemma lookup_snoc {A} (l : list A) (x : A) : (l ++ [x]) !! length l = Some x.
Proof. induction l; simpl; done. Qed.

(** The same for a list [l'] as long as [l]: the image that
    [im_open_local] appends sits behind the images that were there, one of
    which it has updated. *)
Lemma alter_snoc_len {A} (f : A -> A) (l l' : list A) (x : A) :
  length l' = length l -> alter f (length l) (l' ++ [x]) = l' ++ [f x].
Proof. intros <-. apply alter_snoc. Qed.

Lemma lookup_snoc_len {A} (l l' : list A) (x : A) :
  length l' = length l -> (l' ++ [x]) !! length l = Some x.
Proof. intros <-. apply lookup_snoc. Qed.

Lemma foldl_alter_snoc_len {A B} (g : B -> A -> A) (l l' : list A) (x : A)
    (ps : list B) :
  length l' = length l ->
  foldl (fun ims p => alter (g p) (length l) ims) (l' ++ [x]) ps =
  l' ++ [foldl (fun im p => g p im) x ps].
Proof.
  intros Hl. revert x; induction ps as [|p ps IH]; intros x; simpl; [done|].
  rewrite alter_snoc_len by done. apply IH.
Qed.

Lemma wp_bind {A B} (m : M A) (f : A -> M B) Q w :
  wp m (fun r w' =>
          match r with
          | Ok a => wp (f a) Q w'
          | Err e => Q (Err e) w'
          end) w ->
  wp (m ≫= f) Q w.
Proof.
  unfold wp, mbind, M_bind. destruct (m w) as [[a|e] w']; simpl; auto.
Qed.

Lemma wp_intro {A} (m : M A) (P : result A -> World -> Prop) w r w1 :
  m w = (r, w1) -> wp m P w -> P r w1.
Proof. unfold wp. intros ->. auto. Qed.

Lemma wp_eval {A} (m : M A) Q w : Q (m w).1 (m w).2 -> wp m Q w.
Proof. auto. Qed.

Lemma for_each_update_image {A} (out : nat)
    (g : A -> VipsImage -> VipsImage) (l : list A) (w : World) :
  for_each (fun p => update_image out (g p)) l w =
  (Ok tt,
   set_images (fun ims => foldl (fun ims p => alter (g p) out ims) ims l) w).
Proof.
  revert w; induction l as [|a l IH]; intros w; simpl.
  - destruct w; reflexivity.
  - unfold mbind, M_bind. unfold update_image at 1, modify at 1.
    rewrite IH. destruct w; reflexivity.
Qed.

Lemma lookup_foldl_alter {A} (out : nat) (g : A -> VipsImage -> VipsImage)
    (l : list A) (ims : list VipsImage) :
  foldl (fun ims p => alter (g p) out ims) ims l !! out =
  (fun im => foldl (fun im p => g p im) im l) <$> (ims !! out).
Proof.
  revert ims; induction l as [|a l IH]; intros ims; simpl.
  - destruct (ims !! out); reflexivity.
  - rewrite IH, list_lookup_alter_eq. destruct (ims !! out); reflexivity.
Qed.

Lemma background_rgb_set b out :
  match openslide_get_property_value b
          OPENSLIDE_PROPERTY_NAME_BACKGROUND_COLOR with
  | Some background =>
      im_meta_set_int out "background-rgb" (wrap32 (fst (strtoul background 16)))
  | None => im_meta_set_int out "background-rgb" 16777215
  end = im_meta_set_int out "background-rgb" (background_rgb b).
Proof.
  unfold background_rgb. destruct openslide_get_property_value; reflexivity.
Qed.

Ltac wp_heap :=
  unfold rslide_at, ReadSlide_zero;
  cbn [images rslides handles oserror dim_queries buffers trace
       set_images set_rslides set_handles set_oserror set_dim_queries
       set_buffers emit fst snd];
  rewrite ?alter_snoc, ?lookup_snoc;
  cbn [default from_option id osr associated layer downsample fst snd];
  repeat match goal with
         | H : oserror ?w = _ |- context [oserror ?w] => rewrite H
         end.

(** A read leaves its error on the handle unless the handle has one. *)
Ltac wp_raise :=
  apply wp_eval;
  unfold openslide_read_region, openslide_read_associated_image, modify,
    raise_oserror;
  cbn [images rslides handles oserror dim_queries buffers trace
       set_images set_rslides set_handles set_oserror set_dim_queries
       set_buffers emit fst snd];
  lazymatch goal with
  | |- context [match oserror ?w with _ => _ end] =>
      destruct (oserror w) eqn:?
  end;
  cbn [fst snd].

Ltac wp_prim :=
  apply wp_eval;
  cbn [fst snd mret M_ret fail modify get_world get_rslide get_image
       update_rslide update_image VIPS_NEW g_signal_connect_close
       openslide_close openslide_get_associated_image_dimensions
       openslide_get_error vips_image_set_string vips_image_set_int
       im_meta_set_int vips_demand_hint vips_image_init_fields im_open_local
       vips_image_pio_output vips_image_wio_output vips_image_generate
       im_tile_cache VIPS_ARRAY vips_image_write_line].

Ltac wp_step :=
  lazymatch goal with
  | |- wp (@mbind _ _ _ _ _ _) _ _ => apply wp_bind
  | |- wp (openslide_open _ _) _ _ =>
      apply wp_eval; unfold openslide_open;
      destruct (opens _ _) eqn:?; cbn [fst snd]; wp_heap
  | |- wp (check_associated_image _ _) _ _ =>
      unfold check_associated_image at 1
  | |- wp (readslide_new _ _ _ _) _ _ =>
      unfold readslide_new; rewrite ?background_rgb_set
  | |- wp (for_each _ _) _ _ =>
      apply wp_eval; unfold vips_image_set_string;
      rewrite for_each_update_image; cbn [fst snd]; wp_heap
  | |- wp (openslide_read_associated_image _ _ _) _ _ => wp_raise
  | |- wp (openslide_read_region _ _ _ _ _ _ _) _ _ => wp_raise
  | |- wp (for_loop _ _ _ _ _) _ _ => fail
  | |- wp (if ?c then _ else _) _ _ => destruct c eqn:?
  | |- wp (match ?x with _ => _ end) _ _ => destruct x eqn:?
  | |- wp _ _ _ => wp_prim; wp_heap
  end.

(** From [m w = (r, w1)] to a [wp] goal on the postcondition, which is
    kept folded while the program runs. *)
Ltac wp_start H :=
  lazymatch type of H with
  | _ = (?r, ?w1) => pattern r, w1; eapply wp_intro; [exact H|]; clear H
  end;
  lazymatch goal with
  | |- wp _ ?P _ => let Post := fresh "Post" in set (Post := P)
  end.

Ltac wp_post :=
  repeat match goal with
         | Post := _ : result _ -> World -> Prop |- _ => subst Post
         end;
  cbv beta match; wp_heap.

Ltac wp_run := repeat wp_step; wp_post.

Ltac wp_readslide_new :=
  unfold readslide_new; rewrite ?background_rgb_set; wp_run.

(** ** Arithmetic of the C types *)

Lemma wrap32_small (z : Z) : - 2 ^ 31 <= z < 2 ^ 31 -> wrap32 z = z.
Proof. intros H. unfold wrap32. rewrite Z.mod_small; lia. Qed.

Lemma wrap32_range (z : Z) : - 2 ^ 31 <= wrap32 z < 2 ^ 31.
Proof.
  unfold wrap32. pose proof (Z.mod_pos_bound (z + 2 ^ 31) (2 ^ 32)). lia.
Qed.




(** Where the rounding shows: with the downsample 0.7, the coordinates 30
    and 70 give the origin (21, 49); the exact products are just below 21
    and 49. *)
Lemma double_mul_rounds :
  double_to_int (double_mul (inject_Z 30) seven_tenths) = 21 /\
  double_to_int (double_mul (inject_Z 70) seven_tenths) = 49 /\
  double_to_int (inject_Z 30 * seven_tenths) = 20 /\
  double_to_int (inject_Z 70 * seven_tenths) = 48.
Proof. vm_compute. repeat split; reflexivity. Qed.

Lemma strtol_parses (mode : string) (n : Z) :
  parses_as_integer mode n ->
  strtol mode 10 = (Z.max LONG_MIN (Z.min LONG_MAX n), "").
Proof. intros [_ H]. unfold strtol. rewrite H. reflexivity. Qed.

Lemma strtol_endp (mode : string) :
  snd (strtol mode 10) = snd (strto_exact mode 10).
Proof. unfold strtol. destruct (strto_exact mode 10); reflexivity. Qed.

Ltac boolp :=
  repeat match goal with
  | H : _ || _ = true |- _ => apply orb_true_iff in H; destruct H
  | H : _ || _ = false |- _ => apply orb_false_iff in H; destruct H
  | H : (_ <? _) = true |- _ => apply Z.ltb_lt in H
  | H : (_ <? _) = false |- _ => apply Z.ltb_ge in H
  | H : (_ >=? _) = true |- _ => apply Z.geb_le in H
  | H : (_ >=? _) = false |- _ => rewrite Z.geb_leb in H; apply Z.leb_gt in H
  | H : (_ >? _) = true |- _ => apply Z.gtb_lt in H
  | H : (_ >? _) = false |- _ => rewrite Z.gtb_ltb in H; apply Z.ltb_ge in H
  | H : (_ =? _) = true |- _ => apply Z.eqb_eq in H
  | H : (_ =? _) = false |- _ => apply Z.eqb_neq in H
  end.

Ltac finish :=
  unfold dimensions_known, dimensions_fit in *;
  repeat match goal with
  | |- _ /\ _ => split
  | |- _ <-> _ => split
  | |- forall _, _ => intro
  | H : _ /\ _ |- _ => destruct H
  | H : exists _, _ |- _ => destruct H
  | H : Ok _ = Ok _ |- _ => inversion H; clear H; subst
  | H : Err _ = Err _ |- _ => inversion H; clear H
  | H : @eq (result _) _ _ |- _ => discriminate H
  | H : @eq bool _ _ |- _ => discriminate H
  | |- ~ _ => intro
  end;
  rewrite ?lookup_snoc;
  cbn [default from_option id osr associated layer downsample];
  try solve [ reflexivity | lia | congruence | eauto
            | exfalso; lia | exfalso; congruence
            | exfalso; intuition (lia || congruence) ].

(** ** Selecting a layer *)

(** C6, as the code has it.  When OpenSlide opens the slide and the mode
    parses entirely as an integer [n] that fits an [int32_t],
    [readslide_new] fails with [InvalidLayer] exactly when [n] is not in
    [0 <= n < layerCount].  It succeeds exactly when [n] is in that range
    and the width, height and downsample OpenSlide reports for layer [n]
    are not negative and the width and height fit an [int]; a layer in
    range with other dimensions fails with [DimensionQuery] or
    [DimensionOverflow].  On success the handle selects layer [n]. *)
Theorem readslide_new_layer split b filename name mode n out w0 r w1 :
  split filename = (name, mode) ->
  opens b name = true ->
  parses_as_integer mode n ->
  - 2 ^ 31 <= n < 2 ^ 31 ->
  readslide_new split b filename out w0 = (r, w1) ->
  let '(w, h) := openslide_get_layer_dimensions b n in
  let ds := openslide_get_layer_downsample b n in
  (r = Err InvalidLayer <-> ~ (0 <= n < openslide_get_layer_count b)) /\
  ((exists p, r = Ok p) <->
     0 <= n < openslide_get_layer_count b /\
     dimensions_known w h ds /\ dimensions_fit w h) /\
  (r = Err DimensionQuery <->
     0 <= n < openslide_get_layer_count b /\ ~ dimensions_known w h ds) /\
  (r = Err DimensionOverflow <->
     0 <= n < openslide_get_layer_count b /\
     dimensions_known w h ds /\ ~ dimensions_fit w h) /\
  (forall p, r = Ok p ->
     associated (rslide_at w1 p) = None /\ layer (rslide_at w1 p) = n).
Proof.
  intros Hsplit Hopen Hparse Hn H.
  pose proof (strtol_parses _ _ Hparse) as Hstr.
  assert (Hw : wrap32 (Z.max LONG_MIN (Z.min LONG_MAX n)) = n).
  { unfold LONG_MIN, LONG_MAX. rewrite Z.min_r, Z.max_r by lia.
    apply wrap32_small, Hn. }
  destruct Hparse as [Hne _].
  destruct (openslide_get_layer_dimensions b n) as [w h] eqn:Hdims.
  wp_start H. unfold readslide_new.
  rewrite Hsplit, Hstr, Hne, background_rgb_set.
  cbn [nonempty negb andb].
  wp_run.
  all: rewrite ?Hw in *; boolp.
  all: try (replace w with z in * by congruence;
            replace h with z0 in * by congruence).
  all: finish.
Qed.

Lemma readslide_new_layer_witness :
  let r := Ok 0%nat in
  let w1 := snd (readslide_new filename_split good_slide "slide.svs:1" 0
                   one_image) in
  (r = Err InvalidLayer <-> ~ (0 <= 1 < 3)) /\
  ((exists p, r = Ok p) <->
     0 <= 1 < 3 /\ dimensions_known 500 375 4 /\ dimensions_fit 500 375) /\
  (r = Err DimensionQuery <-> 0 <= 1 < 3 /\ ~ dimensions_known 500 375 4) /\
  (r = Err DimensionOverflow <->
     0 <= 1 < 3 /\ dimensions_known 500 375 4 /\ ~ dimensions_fit 500 375) /\
  (forall p, r = Ok p ->
     associated (rslide_at w1 p) = None /\ layer (rslide_at w1 p) = 1).
Proof.
  apply (readslide_new_layer filename_split good_slide "slide.svs:1"
           "slide.svs" "1" 1 0%nat one_image).
  - reflexivity.
  - reflexivity.
  - split; reflexivity.
  - lia.
  - vm_compute. reflexivity.
Defined.

(** C6 as the specification states it fails on a slide whose layer 0 is in
    range but whose dimension query fails: [readslide_new] does not
    succeed, and the error is not [InvalidLayer]. *)
Lemma readslide_new_layer_counterexample :
  let r := fst (readslide_new filename_split failing_slide "slide.svs:0" 0
                  one_image) in
  filename_split "slide.svs:0" = ("slide.svs", "0") /\
  opens failing_slide "slide.svs" = true /\
  parses_as_integer "0" 0 /\
  0 <= 0 < openslide_get_layer_count failing_slide /\
  r = Err DimensionQuery /\
  ~ ((exists p, r = Ok p) <->
     0 <= 0 < openslide_get_layer_count failing_slide).
Proof.
  cbv zeta.
  assert (E : fst (readslide_new filename_split failing_slide "slide.svs:0" 0
                     one_image) = Err DimensionQuery)
    by (vm_compute; reflexivity).
  rewrite E. repeat split; try (vm_compute; congruence).
  intros [_ H]. destruct H as [p Hp]; [vm_compute; split; congruence|].
  discriminate Hp.
Qed.

(** ** Selecting an associated image *)

Lemma strv_contains_elem_of (l : list string) (name : string) :
  strv_contains l name = true <-> name ∈ l.
Proof.
  induction l as [|a l IH]; simpl.
  - split; [discriminate|]. intros H. inversion H.
  - destruct (String.eqb a name) eqn:E.
    + apply String.eqb_eq in E. subst. split; [intros _; left|reflexivity].
    + apply String.eqb_neq in E. rewrite IH. split; [intros; right; done|].
      intros H. inversion H; subst; [congruence|done].
Qed.

Lemma nonempty_true (s : string) : s <> "" -> nonempty s = true.
Proof. destruct s; [congruence|reflexivity]. Qed.

(** C7, as the code has it.  When OpenSlide opens the slide and the mode is
    not empty and does not parse entirely as an integer, [readslide_new]
    fails with [InvalidAssociatedName] exactly when the mode is not one of
    the associated-image names of the slide.  It succeeds exactly when the
    mode is one of them and the width and height OpenSlide reports for that
    image are not negative and fit an [int]; a name of the slide with other
    dimensions fails with [DimensionQuery] or [DimensionOverflow].  On
    success the handle selects that associated image. *)
Theorem readslide_new_associated split b filename name mode out w0 r w1 :
  split filename = (name, mode) ->
  opens b name = true ->
  names_associated mode ->
  readslide_new split b filename out w0 = (r, w1) ->
  let names := openslide_get_associated_image_names b in
  let '(w, h) := associated_dimensions b (dim_queries w0) (Some mode) in
  (r = Err InvalidAssociatedName <-> mode ∉ names) /\
  ((exists p, r = Ok p) <->
     mode ∈ names /\ (0 <= w /\ 0 <= h) /\ dimensions_fit w h) /\
  (r = Err DimensionQuery <-> mode ∈ names /\ ~ (0 <= w /\ 0 <= h)) /\
  (r = Err DimensionOverflow <->
     mode ∈ names /\ (0 <= w /\ 0 <= h) /\ ~ dimensions_fit w h) /\
  (forall p, r = Ok p -> associated (rslide_at w1 p) = Some mode).
Proof.
  intros Hsplit Hopen [Hne Hrest] H.
  rewrite <- strtol_endp in Hrest.
  destruct (strtol mode 10) as [l endp] eqn:Hstr. simpl in Hrest.
  apply nonempty_true in Hrest.
  destruct (associated_dimensions b (dim_queries w0) (Some mode))
    as [w h] eqn:Hdims.
  wp_start H. unfold readslide_new.
  rewrite Hsplit, Hstr, Hne, Hrest, background_rgb_set.
  cbn [nonempty negb andb].
  wp_run.
  all: rewrite ?Hdims in *.
  all: repeat match goal with
       | H : (_, _) = (_, _) |- _ => injection H as ? ?; subst
       end.
  all: try match goal with
       | H : strv_contains _ _ = true |- _ =>
           apply strv_contains_elem_of in H
       | H : strv_contains _ _ = false |- _ =>
           apply not_true_iff_false in H;
           rewrite strv_contains_elem_of in H
       end.
  all: boolp.
  all: try match goal with
       | H : double_lt 0 0 = true |- _ => discriminate H
       end.
  all: finish.
Qed.

Lemma readslide_new_associated_witness :
  let r := Ok 0%nat in
  let w1 := snd (readslide_new filename_split good_slide "slide.svs:label" 0
                   one_image) in
  let names := ["label"; "macro"; "thumbnail"] in
  (r = Err InvalidAssociatedName <-> "label" ∉ names) /\
  ((exists p, r = Ok p) <->
     "label" ∈ names /\ (0 <= 387 /\ 0 <= 463) /\ dimensions_fit 387 463) /\
  (r = Err DimensionQuery <-> "label" ∈ names /\ ~ (0 <= 387 /\ 0 <= 463)) /\
  (r = Err DimensionOverflow <->
     "label" ∈ names /\ (0 <= 387 /\ 0 <= 463) /\ ~ dimensions_fit 387 463) /\
  (forall p, r = Ok p -> associated (rslide_at w1 p) = Some "label").
Proof.
  apply (readslide_new_associated filename_split good_slide "slide.svs:label"
           "slide.svs" "label" 0%nat one_image).
  - reflexivity.
  - reflexivity.
  - split; [reflexivity|vm_compute; congruence].
  - vm_compute. reflexivity.
Defined.

(** C7 as the specification states it fails on a slide that lists the name
    but whose dimension query fails: [readslide_new] does not succeed, and
    the error is not [InvalidAssociatedName]. *)
Lemma readslide_new_associated_counterexample :
  let r := fst (readslide_new filename_split failing_slide "slide.svs:macro"
                  0 one_image) in
  filename_split "slide.svs:macro" = ("slide.svs", "macro") /\
  opens failing_slide "slide.svs" = true /\
  names_associated "macro" /\
  "macro" ∈ openslide_get_associated_image_names failing_slide /\
  r = Err DimensionQuery /\
  ~ ((exists p, r = Ok p) <->
     "macro" ∈ openslide_get_associated_image_names failing_slide).
Proof.
  cbv zeta.
  assert (E : fst (readslide_new filename_split failing_slide
                     "slide.svs:macro" 0 one_image) = Err DimensionQuery)
    by (vm_compute; reflexivity).
  assert (I : "macro" ∈ openslide_get_associated_image_names failing_slide)
    by (apply strv_contains_elem_of; reflexivity).
  rewrite E. repeat split; try done; try (vm_compute; congruence).
  intros [_ H]. destruct (H I) as [p Hp]. discriminate Hp.
Qed.

(** ** The layer index is an [int32_t] *)

(** C9, as the code has it.  For a mode that parses entirely as an integer
    [n], the layer index [readslide_new] stores is what [strtol] returns,
    cut to 32 bits: [n] modulo [2^32] when [n] fits a [long], and [-1] or
    [0] when [n] is above [LONG_MAX] or below [LONG_MIN].  It is that
    stored value which is checked against the layer count, and which a
    successful open selects. *)
Theorem layer_index_truncated split b filename name mode n out w0 r w1 :
  split filename = (name, mode) ->
  opens b name = true ->
  parses_as_integer mode n ->
  readslide_new split b filename out w0 = (r, w1) ->
  let stored := layer (rslide_at w1 (length (rslides w0))) in
  (LONG_MIN <= n <= LONG_MAX -> stored = (n + 2 ^ 31) mod 2 ^ 32 - 2 ^ 31) /\
  (LONG_MAX < n -> stored = -1) /\
  (n < LONG_MIN -> stored = 0) /\
  (r = Err InvalidLayer <->
     ~ (0 <= stored < openslide_get_layer_count b)) /\
  (forall p, r = Ok p -> p = length (rslides w0) /\
     associated (rslide_at w1 p) = None).
Proof.
  intros Hsplit Hopen Hparse H.
  pose proof (strtol_parses _ _ Hparse) as Hstr.
  destruct Hparse as [Hne _].
  assert (Hst :
    (LONG_MIN <= n <= LONG_MAX ->
       wrap32 (Z.max LONG_MIN (Z.min LONG_MAX n))
       = (n + 2 ^ 31) mod 2 ^ 32 - 2 ^ 31) /\
    (LONG_MAX < n -> wrap32 (Z.max LONG_MIN (Z.min LONG_MAX n)) = -1) /\
    (n < LONG_MIN -> wrap32 (Z.max LONG_MIN (Z.min LONG_MAX n)) = 0)).
  { unfold LONG_MIN, LONG_MAX. split; [|split]; intros Hr.
    - rewrite Z.min_r, Z.max_r by lia. reflexivity.
    - rewrite Z.min_l, Z.max_r by lia. reflexivity.
    - rewrite Z.min_r, Z.max_l by lia. reflexivity. }
  destruct Hst as (Hs1 & Hs2 & Hs3).
  wp_start H. unfold readslide_new.
  rewrite Hsplit, Hstr, Hne, background_rgb_set.
  cbn [nonempty negb andb].
  wp_run.
  all: unfold rslide_at;
       cbn [images rslides set_images set_rslides set_handles set_dim_queries
            emit];
       rewrite ?alter_snoc, ?lookup_snoc;
       cbn [default from_option id osr associated layer downsample].
  all: boolp; finish.
  all: try (apply Hs1; lia).
Qed.

Lemma layer_index_truncated_witness :
  let r := Ok 0%nat in
  let w1 := snd (readslide_new filename_split good_slide
                   "slide.svs:4294967296" 0 one_image) in
  let stored := layer (rslide_at w1 0) in
  (LONG_MIN <= 4294967296 <= LONG_MAX ->
     stored = (4294967296 + 2 ^ 31) mod 2 ^ 32 - 2 ^ 31) /\
  (LONG_MAX < 4294967296 -> stored = -1) /\
  (4294967296 < LONG_MIN -> stored = 0) /\
  (r = Err InvalidLayer <-> ~ (0 <= stored < 3)) /\
  (forall p, r = Ok p -> p = 0%nat /\ associated (rslide_at w1 p) = None).
Proof.
  apply (layer_index_truncated filename_split good_slide
           "slide.svs:4294967296" "slide.svs" "4294967296" 4294967296
           0%nat one_image).
  - reflexivity.
  - reflexivity.
  - split; reflexivity.
  - vm_compute. reflexivity.
Defined.

(** C9 as stated fails for a mode above [LONG_MAX]: [2^63] modulo [2^32]
    is [0], a valid layer of the slide, but [strtol] returns [LONG_MAX],
    the index stored is [-1] and the open fails with [InvalidLayer]. *)
Lemma layer_index_truncated_counterexample :
  let run := readslide_new filename_split good_slide
               "slide.svs:9223372036854775808" 0 one_image in
  parses_as_integer "9223372036854775808" (2 ^ 63) /\
  ~ (- 2 ^ 31 <= 2 ^ 63 < 2 ^ 31) /\
  wrap32 (2 ^ 63) = 0 /\
  0 <= wrap32 (2 ^ 63) < openslide_get_layer_count good_slide /\
  layer (rslide_at (snd run) 0) = -1 /\
  layer (rslide_at (snd run) 0) <> wrap32 (2 ^ 63) /\
  fst run = Err InvalidLayer.
Proof.
  cbv zeta.
  assert (E : readslide_new filename_split good_slide
                "slide.svs:9223372036854775808" 0 one_image
              = (Err InvalidLayer,
                 snd (readslide_new filename_split good_slide
                        "slide.svs:9223372036854775808" 0 one_image)))
    by (vm_compute; reflexivity).
  assert (L : layer (rslide_at (snd (readslide_new filename_split good_slide
                "slide.svs:9223372036854775808" 0 one_image)) 0) = -1)
    by (vm_compute; reflexivity).
  rewrite L, E. cbn [fst].
  split; [split; reflexivity|].
  split; [lia|].
  split; [reflexivity|].
  split; [vm_compute; split; congruence|].
  split; [reflexivity|].
  split; [vm_compute; congruence|reflexivity].
Qed.

(** ** What open leaves on the image *)

Ltac wp_image Him :=
  unfold image_at;
  cbn [images rslides set_images set_rslides set_handles set_oserror
       set_dim_queries set_buffers emit];
  rewrite ?list_lookup_alter_eq, ?lookup_foldl_alter, ?list_lookup_alter_eq,
    ?Him;
  cbn [fmap option_fmap option_map default from_option id
       fields meta dhint close_cbs generate_cb tile_cache locals
       set_fields set_meta set_dhint add_close_cb set_generate_cb
       set_tile_cache add_local].

(** The metadata the copying loop leaves keeps the other fields of the
    image. *)
Lemma foldl_set_meta_fields {A} (k : A -> string) (v : A -> MetaValue)
    (l : list A) (im : VipsImage) :
  let im' := foldl (fun im p => set_meta (k p) (v p) im) im l in
  fields im' = fields im /\ dhint im' = dhint im /\
  close_cbs im' = close_cbs im /\ generate_cb im' = generate_cb im /\
  tile_cache im' = tile_cache im /\ locals im' = locals im.
Proof.
  revert im; induction l as [|a l IH]; intros im; simpl; [done|].
  destruct (IH (set_meta (k a) (v a) im)) as (?&?&?&?&?&?). done.
Qed.

(** C3, as the code has it.  [readslide_new] attaches the selector entry
    and "background-rgb" before it checks the dimensions, and checks the
    dimensions before it initialises the image fields and copies the
    properties.  So when it fails with [DimensionQuery] or
    [DimensionOverflow], the metadata of the image is what it was plus the
    selector entry and "background-rgb", no property has been copied, and
    the fields are untouched. *)
Theorem dimension_failure_metadata split b filename out w0 r w1 im0 :
  images w0 !! out = Some im0 ->
  readslide_new split b filename out w0 = (r, w1) ->
  r = Err DimensionQuery \/ r = Err DimensionOverflow ->
  let rs := rslide_at w1 (length (rslides w0)) in
  let im := image_at w1 out in
  let selector :=
    match associated rs with
    | Some a => ("slide-associated-image", MetaString (Some a))
    | None => ("slide-layer", MetaInt (layer rs))
    end in
  meta im = <["background-rgb" := MetaInt (background_rgb b)]>
              (<[selector.1 := selector.2]> (meta im0)) /\
  fields im = fields im0.
Proof.
  intros Him H. wp_start H. wp_readslide_new.
  all: intros [Hr|Hr]; try discriminate Hr.
  all: wp_heap; cbn [fst snd]; wp_image Him; split; reflexivity.
Qed.

Lemma dimension_failure_metadata_witness :
  let w1 := snd (readslide_new filename_split failing_slide "slide.svs" 0
                   one_image) in
  let rs := rslide_at w1 (length (rslides one_image)) in
  let im := image_at w1 0 in
  let selector :=
    match associated rs with
    | Some a => ("slide-associated-image", MetaString (Some a))
    | None => ("slide-layer", MetaInt (layer rs))
    end in
  meta im = <["background-rgb" := MetaInt (background_rgb failing_slide)]>
              (<[selector.1 := selector.2]> (meta VipsImage_new)) /\
  fields im = fields VipsImage_new.
Proof.
  apply (dimension_failure_metadata filename_split failing_slide "slide.svs"
           0%nat one_image (Err DimensionQuery)).
  - reflexivity.
  - vm_compute. reflexivity.
  - left. reflexivity.
Defined.

(** C3 as stated fails: on a slide whose dimension query fails,
    [readslide_new] fails with [DimensionQuery] and the image already
    carries "background-rgb". *)
Lemma dimension_failure_metadata_counterexample :
  let run := readslide_new filename_split failing_slide "slide.svs" 0
               one_image in
  meta (image_at one_image 0) !! "background-rgb" = None /\
  fst run = Err DimensionQuery /\
  meta (image_at (snd run) 0) !! "background-rgb" = Some (MetaInt 15790320).
Proof. vm_compute. repeat split; reflexivity. Qed.

(** C4, as the code has it.  A successful [readslide_new] initialises the
    fields of the image in both modes: the width and height OpenSlide
    reported for the layer or the associated image, 4 bands of unsigned
    8-bit samples, no coding, RGB, resolution 1.  The demand hint is
    small-tile for a layer and thin-strip for an associated image.
    [readslide_new] registers no generate callback and no cache: the
    image's are what they were. *)
Theorem readslide_new_skeleton split b filename out w0 p w1 im0 :
  images w0 !! out = Some im0 ->
  readslide_new split b filename out w0 = (Ok p, w1) ->
  let rs := rslide_at w1 p in
  let im := image_at w1 out in
  let '(w, h) :=
    match associated rs with
    | Some a => associated_dimensions b (dim_queries w0) (Some a)
    | None => openslide_get_layer_dimensions b (layer rs)
    end in
  (0 <= w <= INT_MAX /\ 0 <= h <= INT_MAX) /\
  fields im = Some {| Xsize := w; Ysize := h; Bands := 4;
                      BandFmt := VIPS_FORMAT_UCHAR;
                      Coding := VIPS_CODING_NONE;
                      Type_ := VIPS_INTERPRETATION_RGB;
                      Xres := 1; Yres := 1 |} /\
  dhint im = Some (match associated rs with
                   | Some _ => VIPS_DEMAND_STYLE_THINSTRIP
                   | None => VIPS_DEMAND_STYLE_SMALLTILE
                   end) /\
  generate_cb im = generate_cb im0 /\
  tile_cache im = tile_cache im0.
Proof.
  intros Him H.
  change (match Ok p with
          | Ok p =>
              let rs := rslide_at w1 p in
              let im := image_at w1 out in
              let '(w, h) :=
                match associated rs with
                | Some a => associated_dimensions b (dim_queries w0) (Some a)
                | None => openslide_get_layer_dimensions b (layer rs)
                end in
              (0 <= w <= INT_MAX /\ 0 <= h <= INT_MAX) /\
              fields im = Some {| Xsize := w; Ysize := h; Bands := 4;
                                  BandFmt := VIPS_FORMAT_UCHAR;
                                  Coding := VIPS_CODING_NONE;
                                  Type_ := VIPS_INTERPRETATION_RGB;
                                  Xres := 1; Yres := 1 |} /\
              dhint im = Some (match associated rs with
                               | Some _ => VIPS_DEMAND_STYLE_THINSTRIP
                               | None => VIPS_DEMAND_STYLE_SMALLTILE
                               end) /\
              generate_cb im = generate_cb im0 /\
              tile_cache im = tile_cache im0
          | Err _ => True
          end).
  wp_start H. wp_readslide_new.
  all: try exact I.
  all: cbv zeta; wp_heap; cbn [fst snd]; wp_image Him.
  all: match goal with
       | H : ?d = (_, _) |- context [let '(_, _) := ?d in _] => rewrite H
       end.
  all: match goal with
       | |- context [foldl ?f ?im ?l] =>
           destruct (foldl_set_meta_fields (fun p => p)
                       (fun p => MetaString (openslide_get_property_value b p))
                       l im) as (Hf & Hd & _ & Hg & Ht & _);
           cbn beta in Hf, Hd, Hg, Ht; rewrite Hf, Hd, Hg, Ht
       end.
  all: cbn [fields dhint generate_cb tile_cache set_fields set_meta set_dhint
            add_close_cb].
  all: boolp; unfold INT_MAX in *; rewrite !wrap32_small by lia.
  all: repeat split; try reflexivity; lia.
Qed.

Lemma readslide_new_skeleton_witness :
  let w1 := snd (readslide_new filename_split good_slide "slide.svs:label" 0
                   one_image) in
  let rs := rslide_at w1 0 in
  let im := image_at w1 0 in
  let '(w, h) :=
    match associated rs with
    | Some a =>
        associated_dimensions good_slide (dim_queries one_image) (Some a)
    | None => openslide_get_layer_dimensions good_slide (layer rs)
    end in
  (0 <= w <= INT_MAX /\ 0 <= h <= INT_MAX) /\
  fields im = Some {| Xsize := w; Ysize := h; Bands := 4;
                      BandFmt := VIPS_FORMAT_UCHAR;
                      Coding := VIPS_CODING_NONE;
                      Type_ := VIPS_INTERPRETATION_RGB;
                      Xres := 1; Yres := 1 |} /\
  dhint im = Some (match associated rs with
                   | Some _ => VIPS_DEMAND_STYLE_THINSTRIP
                   | None => VIPS_DEMAND_STYLE_SMALLTILE
                   end) /\
  generate_cb im = generate_cb VipsImage_new /\
  tile_cache im = tile_cache VipsImage_new.
Proof.
  apply (readslide_new_skeleton filename_split good_slide "slide.svs:label"
           0%nat one_image 0%nat).
  - reflexivity.
  - vm_compute. reflexivity.
Defined.

(** C4 as stated fails on both counts: opening an associated image
    initialises the fields of the image, and opening a layer registers no
    generate callback. *)
Lemma readslide_new_skeleton_counterexample :
  let label := readslide_new filename_split good_slide "slide.svs:label" 0
                 one_image in
  let layer1 := readslide_new filename_split good_slide "slide.svs:1" 0
                  one_image in
  fields (image_at one_image 0) = None /\
  fst label = Ok 0%nat /\
  associated (rslide_at (snd label) 0) = Some "label" /\
  fields (image_at (snd label) 0) =
    Some {| Xsize := 387; Ysize := 463; Bands := 4;
            BandFmt := VIPS_FORMAT_UCHAR; Coding := VIPS_CODING_NONE;
            Type_ := VIPS_INTERPRETATION_RGB; Xres := 1; Yres := 1 |} /\
  fst layer1 = Ok 0%nat /\
  associated (rslide_at (snd layer1) 0) = None /\
  generate_cb (image_at (snd layer1) 0) = None.
Proof. vm_compute. repeat split; reflexivity. Qed.

(** ** The tile cache of the layer read path *)

(** The [double] product and its conversion, in integers. *)
Lemma tile_cache_max_tiles_eq (xsize : Z) :
  0 <= xsize -> tile_cache_max_tiles xsize = 3 * (1 + xsize / 256) / 2.
Proof.
  intros H. unfold tile_cache_max_tiles, double_to_int, TILE_WIDTH.
  rewrite (Z.quot_div_nonneg xsize 256) by lia.
  cbn [Qmult inject_Z Qnum Qden Pos.mul].
  apply Z.quot_div_nonneg; [|lia].
  pose proof (Z.div_pos xsize 256). lia.
Qed.

(** What a successful [vips__openslide_read_file] leaves: the image
    [readslide_new] set up, [fill_region] registered on it, and a cache of
    256 by 256 tiles on [out] sized from the width of that image. *)
Lemma read_file_ok split b filename out lyr w0 w1 im0 :
  images w0 !! out = Some im0 ->
  vips__openslide_read_file split b filename out lyr w0 = (Ok tt, w1) ->
  let raw := length (images w0) in
  exists f,
    fields (image_at w1 raw) = Some f /\ 0 <= Xsize f <= INT_MAX /\
    generate_cb (image_at w1 raw) = Some (length (rslides w0)) /\
    tile_cache (image_at w1 out) =
      Some {| cache_source := raw; tile_width := 256; tile_height := 256;
              max_tiles := tile_cache_max_tiles (Xsize f) |}.
Proof.
  intros Him H.
  change (match Ok tt with
          | Ok _ =>
              let raw := length (images w0) in
              exists f,
                fields (image_at w1 raw) = Some f /\
                0 <= Xsize f <= INT_MAX /\
                generate_cb (image_at w1 raw) = Some (length (rslides w0)) /\
                tile_cache (image_at w1 out) =
                  Some {| cache_source := raw; tile_width := 256;
                          tile_height := 256;
                          max_tiles := tile_cache_max_tiles (Xsize f) |}
          | Err _ => True
          end).
  wp_start H. unfold vips__openslide_read_file.
  wp_run.
  all: try exact I.
  all: cbv zeta; unfold image_at;
       cbn [images rslides set_images set_rslides set_handles set_oserror
            set_dim_queries set_buffers emit].
  all: assert (Hout : (out < length (images w0))%nat)
         by (eapply lookup_lt_Some; eauto).
  all: repeat first
         [ rewrite alter_snoc_len by apply length_alter
         | rewrite foldl_alter_snoc_len by apply length_alter ].
  all: rewrite !list_lookup_alter_ne by lia.
  all: rewrite !lookup_snoc_len by apply length_alter.
  all: rewrite list_lookup_alter_eq, lookup_app_l
         by (rewrite length_alter; lia).
  all: rewrite list_lookup_alter_eq, Him.
  all: cbn [fmap option_fmap option_map default from_option id].
  all: unfold image_Xsize.
  all: cbn [fields generate_cb tile_cache set_generate_cb set_tile_cache
            set_meta].
  all: match goal with
       | |- context [foldl ?f ?im ?l] =>
           destruct (foldl_set_meta_fields (fun p => p)
                       (fun p => MetaString (openslide_get_property_value b p))
                       l im) as (Hf & _);
           cbn beta in Hf; rewrite Hf
       end.
  all: cbn [fields set_fields].
  all: eexists; split; [reflexivity|]; cbn [Xsize].
  all: boolp; unfold INT_MAX in *; rewrite !wrap32_small by lia.
  all: repeat split; try reflexivity; lia.
Qed.

(** C2, as the code has it.  The cache [vips__openslide_read_file]
    installs holds [1.5 * (1 + imageWidth / 256)] tiles, the division and
    the final conversion both dropping the fraction:
    [(3 * (1 + imageWidth div 256)) div 2].  For an image width of 2000
    that is 12 tiles. *)
Theorem read_file_cache_capacity split b filename out lyr w0 w1 im0 :
  images w0 !! out = Some im0 ->
  vips__openslide_read_file split b filename out lyr w0 = (Ok tt, w1) ->
  let raw := length (images w0) in
  (exists f c,
     fields (image_at w1 raw) = Some f /\
     tile_cache (image_at w1 out) = Some c /\
     cache_source c = raw /\
     tile_width c = 256 /\ tile_height c = 256 /\
     max_tiles c = 3 * (1 + Xsize f / 256) / 2) /\
  tile_cache_max_tiles 2000 = 12.
Proof.
  intros Him H. cbv zeta. split; [|reflexivity].
  destruct (read_file_ok _ _ _ _ _ _ _ _ Him H) as (f & Hf & Hx & _ & Hc).
  exists f. eexists. split; [exact Hf|]. split; [exact Hc|].
  cbn [cache_source tile_width tile_height max_tiles].
  repeat split. apply tile_cache_max_tiles_eq. lia.
Qed.

Lemma read_file_cache_capacity_witness :
  let w1 := snd (vips__openslide_read_file filename_split good_slide
                   "slide.svs" 0 0 one_image) in
  let raw := length (images one_image) in
  (exists f c,
     fields (image_at w1 raw) = Some f /\
     tile_cache (image_at w1 0) = Some c /\
     cache_source c = raw /\
     tile_width c = 256 /\ tile_height c = 256 /\
     max_tiles c = 3 * (1 + Xsize f / 256) / 2) /\
  tile_cache_max_tiles 2000 = 12.
Proof.
  apply (read_file_cache_capacity filename_split good_slide "slide.svs"
           0%nat 0 one_image _ VipsImage_new).
  - reflexivity.
  - vm_compute. reflexivity.
Defined.

(** C2 as stated fails for an image one tile wide: the specification's
    formula gives 2 tiles, the cache installed holds 3. *)
Lemma read_file_cache_capacity_counterexample :
  let w1 := snd (vips__openslide_read_file filename_split narrow_slide
                   "slide.svs" 0 0 one_image) in
  Xsize <$> fields (image_at w1 1) = Some 256 /\
  max_tiles <$> tile_cache (image_at w1 0) = Some 3 /\
  capacity_spec 256 TILE_WIDTH = 2 /\
  max_tiles <$> tile_cache (image_at w1 0)
    <> Some (capacity_spec 256 TILE_WIDTH).
Proof. vm_compute. repeat split; try reflexivity. congruence. Qed.

(** ** Releasing the handle *)

Lemma closes_app (h : nat) (l1 l2 : list Event) :
  closes h (l1 ++ l2) = (closes h l1 + closes h l2)%nat.
Proof. unfold closes. rewrite filter_app, length_app. reflexivity. Qed.

Lemma opened_app (h : nat) (l1 l2 : list Event) :
  opened h (l1 ++ l2) = (opened h l1 + opened h l2)%nat.
Proof. unfold opened. rewrite filter_app, length_app. reflexivity. Qed.

Lemma closes_close (h x : nat) :
  closes h [EvClose x] = if decide (x = h) then 1%nat else 0%nat.
Proof.
  unfold closes. rewrite filter_cons, filter_nil. cbn [is_close].
  destruct (decide (x = h)) as [->|Hne].
  - rewrite Nat.eqb_refl. destruct (decide (true = true)); done.
  - assert (E : Nat.eqb h x = false) by (apply Nat.eqb_neq; congruence).
    rewrite E. destruct (decide (false = true)); done.
Qed.

(** [readslide_destroy_cb] in one equation: it closes the handle the
    struct holds and clears the field, and does nothing to a struct that
    holds none. *)
Lemma readslide_destroy_cb_eq image rslide w :
  readslide_destroy_cb image rslide w =
  (Ok tt,
   match osr (rslide_at w rslide) with
   | Some h =>
       set_rslides
         (alter (fun r => {| osr := None; associated := associated r;
                             layer := layer r; downsample := downsample r |})
            rslide)
         (emit (EvClose h) w)
   | None => w
   end).
Proof.
  unfold readslide_destroy_cb, mbind, M_bind, get_rslide.
  destruct (osr (rslide_at w rslide)); reflexivity.
Qed.

Lemma osr_after_clear (l : list ReadSlide) (q q' : nat) :
  osr (default ReadSlide_zero
         (alter (fun r => {| osr := None; associated := associated r;
                             layer := layer r; downsample := downsample r |})
            q l !! q')) =
  if decide (q = q') then None
  else osr (default ReadSlide_zero (l !! q')).
Proof.
  destruct (decide (q = q')) as [->|Hne].
  - rewrite list_lookup_alter_eq. destruct (l !! q'); reflexivity.
  - rewrite list_lookup_alter_ne by done. reflexivity.
Qed.

(** Running the handlers of a "close" signal: the image store is not
    touched, no struct comes to hold a handle, every struct in the list
    ends without one, and what the struct at [p] held of [h] has moved to
    the closes of [h] in the trace. *)
Lemma for_each_destroy image h p (cbs : list nat) : forall w,
  (forall q, q <> p -> osr (rslide_at w q) <> Some h) ->
  exists w',
    for_each (readslide_destroy_cb image) cbs w = (Ok tt, w') /\
    images w' = images w /\
    (forall q, q <> p -> osr (rslide_at w' q) <> Some h) /\
    (forall q, q ∈ cbs -> osr (rslide_at w' q) = None) /\
    (forall q, osr (rslide_at w q) = None -> osr (rslide_at w' q) = None) /\
    (holding h p w' + closes h (trace w') =
     holding h p w + closes h (trace w))%nat /\
    opened h (trace w') = opened h (trace w).
Proof.
  induction cbs as [|q cbs IH]; intros w Hothers.
  - exists w. cbn [for_each]. repeat split; try done.
    intros q Hq. inversion Hq.
  - cbn [for_each]. unfold mbind, M_bind. rewrite readslide_destroy_cb_eq.
    set (w1 := match osr (rslide_at w q) with
               | Some x => _
               | None => w
               end).
    assert (Himg : images w1 = images w)
      by (subst w1; destruct (osr (rslide_at w q)); reflexivity).
    assert (Hosr : forall q', osr (rslide_at w1 q') =
                     if decide (q = q') then None else osr (rslide_at w q')).
    { intros q'. subst w1. destruct (osr (rslide_at w q)) as [x|] eqn:E.
      - unfold rslide_at. cbn [rslides set_rslides emit].
        apply osr_after_clear.
      - destruct (decide (q = q')) as [<-|]; [exact E|reflexivity]. }
    assert (Hcount : (holding h p w1 + closes h (trace w1) =
                      holding h p w + closes h (trace w))%nat).
    { unfold holding. fold (rslide_at w1 p). fold (rslide_at w p).
      rewrite (Hosr p). subst w1.
      destruct (osr (rslide_at w q)) as [x|] eqn:E.
      - cbn [trace set_rslides emit]. rewrite closes_app, closes_close.
        destruct (decide (q = p)) as [->|Hqp].
        + rewrite E. destruct (decide (None = Some h)); [done|].
          destruct (decide (Some x = Some h)) as [Hx|Hx].
          * injection Hx as ->. destruct (decide (h = h)); [lia|done].
          * destruct (decide (x = h)); [congruence|lia].
        + destruct (decide (x = h)) as [->|]; [|lia].
          exfalso. exact (Hothers q Hqp E).
      - destruct (decide (q = p)) as [->|]; [|reflexivity].
        rewrite E. reflexivity. }
    assert (Hopened : opened h (trace w1) = opened h (trace w)).
    { subst w1. destruct (osr (rslide_at w q)); [|reflexivity].
      cbn [trace set_rslides emit]. rewrite opened_app.
      unfold opened at 2. rewrite filter_cons, filter_nil. cbn [is_open].
      destruct (decide (false = true)); [done|]. simpl. lia. }
    destruct (IH w1) as (w' & Hrun & Hi & Ho & Hc & Hn & Hk & Hop).
    { intros q' Hq'. rewrite Hosr. destruct (decide (q = q')); [done|].
      apply Hothers, Hq'. }
    exists w'. rewrite Hrun. repeat split.
    + congruence.
    + exact Ho.
    + intros q' Hq'. apply list_elem_of_In in Hq'. destruct Hq' as [<-|Hq'].
      * apply Hn. rewrite Hosr. destruct (decide (q = q)); done.
      * apply Hc, list_elem_of_In, Hq'.
    + intros q' Hq'. apply Hn. rewrite Hosr.
      destruct (decide (q = q')); done.
    + lia.
    + congruence.
Qed.

Lemma closes_not_close (h : nat) (e : Event) :
  is_close h e = false -> closes h [e] = 0%nat.
Proof.
  intros E. unfold closes. rewrite filter_cons, filter_nil, E.
  destruct (decide (false = true)); done.
Qed.

Lemma opened_not_open (h : nat) (e : Event) :
  is_open h e = false -> opened h [e] = 0%nat.
Proof.
  intros E. unfold opened. rewrite filter_cons, filter_nil, E.
  destruct (decide (false = true)); done.
Qed.

Lemma opened_open (h : nat) (name : string) : opened h [EvOpen h name] = 1%nat.
Proof.
  unfold opened. rewrite filter_cons, filter_nil. cbn [is_open].
  rewrite Nat.eqb_refl. destruct (decide (true = true)); done.
Qed.

(** What [readslide_new] does to the handle, whatever it returns: the
    struct is new, it holds the handle exactly when OpenSlide gave one, the
    image has [readslide_destroy_cb] connected for that struct, and nothing
    was closed. *)
Lemma readslide_new_handle split b filename out w0 r w1 im0 :
  images w0 !! out = Some im0 ->
  readslide_new split b filename out w0 = (r, w1) ->
  let h := handles w0 in
  let p := length (rslides w0) in
  let did_open := opens b (split filename).1 in
  close_cbs (image_at w1 out) = close_cbs im0 ++ [p] /\
  images w1 !! out = Some (image_at w1 out) /\
  (exists rs, rslides w1 = rslides w0 ++ [rs] /\
              osr rs = if did_open then Some h else None) /\
  (forall x, closes x (trace w1) = closes x (trace w0)) /\
  opened h (trace w1)
    = (opened h (trace w0) + if did_open then 1 else 0)%nat /\
  (r = Err OpenFailure <-> did_open = false).
Proof.
  intros Him H. wp_start H. wp_readslide_new.
  all: cbv zeta; cbn [fst snd]; wp_heap; wp_image Him.
  all: rewrite ?Heqb0.
  all: try match goal with
       | |- context [foldl ?f ?im ?l] =>
           destruct (foldl_set_meta_fields (fun p => p)
                       (fun p => MetaString (openslide_get_property_value b p))
                       l im) as (_ & _ & Hc & _);
           cbn beta in Hc; rewrite Hc
       end.
  all: cbn [close_cbs set_fields set_meta set_dhint add_close_cb].
  all: split; [reflexivity|].
  all: split; [reflexivity|].
  all: split; [eexists; split; reflexivity|].
  all: split;
       [intros x; rewrite ?closes_app, ?closes_not_close by reflexivity; lia|].
  all: split;
       [rewrite ?opened_app, ?opened_open, ?opened_not_open by reflexivity;
        lia|].
  all: split; intros; congruence.
Qed.

Lemma vips_image_close_eq image w :
  vips_image_close image w =
  for_each (readslide_destroy_cb image) (close_cbs (image_at w image)) w.
Proof. reflexivity. Qed.

(** The "close" signal any number of times: the handle [h] the struct at
    [p] holds is closed once, by the first run. *)
Lemma close_times_spec image h p (n : nat) : forall w,
  (forall q, q <> p -> osr (rslide_at w q) <> Some h) ->
  p ∈ close_cbs (image_at w image) ->
  exists w',
    close_times n image w = (Ok tt, w') /\
    images w' = images w /\
    (forall q, q <> p -> osr (rslide_at w' q) <> Some h) /\
    (forall q, osr (rslide_at w q) = None -> osr (rslide_at w' q) = None) /\
    (n <> 0%nat -> osr (rslide_at w' p) = None) /\
    (holding h p w' + closes h (trace w') =
     holding h p w + closes h (trace w))%nat /\
    opened h (trace w') = opened h (trace w).
Proof.
  induction n as [|n IH]; intros w Hothers Hreg.
  - exists w. cbn [close_times]. repeat split; done.
  - cbn [close_times]. unfold mbind, M_bind. rewrite vips_image_close_eq.
    destruct (for_each_destroy image h p (close_cbs (image_at w image)) w
                Hothers)
      as (w1 & Hrun & Hi & Ho & Hc & Hn & Hk & Hop).
    rewrite Hrun.
    destruct (IH w1 Ho) as (w' & Hrun' & Hi' & Ho' & Hn' & _ & Hk' & Hop').
    { unfold image_at. rewrite Hi. exact Hreg. }
    exists w'. rewrite Hrun'. repeat split.
    + congruence.
    + exact Ho'.
    + intros q Hq. apply Hn', Hn, Hq.
    + intros _. apply Hn', Hc, Hreg.
    + lia.
    + congruence.
Qed.

(** C5.  Whatever [readslide_new] returns, [readslide_destroy_cb] is
    connected to the "close" signal of the image for the struct that holds
    the handle (it is connected before the slide is even opened, so before
    every check that can fail), and nothing has been closed yet.  Running
    the "close" signal of the image, once or more often, closes the handle
    exactly once if OpenSlide gave one, and never if the open failed.  The
    callback does nothing to a struct without a handle, which is what a
    failed open and a first close leave. *)
Theorem resource_released_once split b filename out w0 r w1 im0 n :
  images w0 !! out = Some im0 ->
  handles_fresh w0 ->
  readslide_new split b filename out w0 = (r, w1) ->
  let h := handles w0 in
  let p := length (rslides w0) in
  let did_open := opens b (split filename).1 in
  p ∈ close_cbs (image_at w1 out) /\
  osr (rslide_at w1 p) = (if did_open then Some h else None) /\
  opened h (trace w1) = (if did_open then 1 else 0)%nat /\
  closes h (trace w1) = 0%nat /\
  (r = Err OpenFailure <-> did_open = false) /\
  (exists w2,
     close_times (S n) out w1 = (Ok tt, w2) /\
     closes h (trace w2) = (if did_open then 1 else 0)%nat /\
     opened h (trace w2) = (if did_open then 1 else 0)%nat /\
     osr (rslide_at w2 p) = None) /\
  (forall w q, osr (rslide_at w q) = None ->
     readslide_destroy_cb out q w = (Ok tt, w)).
Proof.
  intros Him [Hheld Htrace] H. cbv zeta.
  destruct (readslide_new_handle _ _ _ _ _ _ _ _ Him H)
    as (Hcbs & Hlook & (rs & Hrs & Hosr) & Hcl & Hop & Hfail).
  cbv zeta in *.
  destruct (Htrace (handles w0)) as [Hc0 Ho0]; [lia|].
  assert (Hp : rslide_at w1 (length (rslides w0)) = rs).
  { unfold rslide_at. rewrite Hrs, lookup_snoc. reflexivity. }
  assert (Hothers : forall q, q <> length (rslides w0) ->
            osr (rslide_at w1 q) <> Some (handles w0)).
  { intros q Hq E. unfold rslide_at in E. rewrite Hrs in E.
    destruct (decide (q < length (rslides w0))%nat) as [Hlt|Hge].
    - rewrite lookup_app_l in E by exact Hlt.
      destruct (rslides w0 !! q) as [rs'|] eqn:El; [|discriminate E].
      cbn [default from_option id] in E.
      pose proof (Hheld rs' (handles w0)
                    (list_elem_of_lookup_2 _ _ _ El) E). lia.
    - rewrite lookup_ge_None_2 in E; [discriminate E|].
      rewrite length_app. cbn [length]. lia. }
  assert (Hreg : length (rslides w0) ∈ close_cbs (image_at w1 out)).
  { rewrite Hcbs. apply elem_of_app. right. apply list_elem_of_In. left.
    reflexivity. }
  split; [exact Hreg|].
  split; [rewrite Hp; exact Hosr|].
  split; [rewrite Hop, Ho0; reflexivity|].
  split; [rewrite Hcl; exact Hc0|].
  split; [exact Hfail|].
  split.
  - destruct (close_times_spec out (handles w0) (length (rslides w0)) (S n)
                w1 Hothers Hreg)
      as (w2 & Hrun & _ & _ & _ & Hnone & Hk & Hop2).
    exists w2. split; [exact Hrun|].
    assert (Hh2 : holding (handles w0) (length (rslides w0)) w2 = 0%nat).
    { unfold holding. fold (rslide_at w2 (length (rslides w0))).
      rewrite Hnone by done. destruct (decide (None = Some (handles w0)));
        done. }
    assert (Hh1 : holding (handles w0) (length (rslides w0)) w1 =
                  if opens b (split filename).1 then 1%nat else 0%nat).
    { unfold holding. fold (rslide_at w1 (length (rslides w0))).
      rewrite Hp, Hosr. destruct (opens b (split filename).1).
      - destruct (decide (Some (handles w0) = Some (handles w0))); done.
      - destruct (decide (None = Some (handles w0))); done. }
    rewrite Hh2, Hh1, Hcl, Hc0 in Hk.
    split; [lia|]. split; [rewrite Hop2, Hop, Ho0; reflexivity|].
    apply Hnone. done.
  - intros w q Hq. rewrite readslide_destroy_cb_eq, Hq. reflexivity.
Qed.

Lemma resource_released_once_witness :
  let w1 := snd (readslide_new filename_split good_slide "slide.svs:7" 0
                   one_image) in
  let r : result nat := Err InvalidLayer in
  let h := handles one_image in
  let p := length (rslides one_image) in
  let did_open := opens good_slide (filename_split "slide.svs:7").1 in
  p ∈ close_cbs (image_at w1 0) /\
  osr (rslide_at w1 p) = (if did_open then Some h else None) /\
  opened h (trace w1) = (if did_open then 1 else 0)%nat /\
  closes h (trace w1) = 0%nat /\
  (r = Err OpenFailure <-> did_open = false) /\
  (exists w2,
     close_times 2 0 w1 = (Ok tt, w2) /\
     closes h (trace w2) = (if did_open then 1 else 0)%nat /\
     opened h (trace w2) = (if did_open then 1 else 0)%nat /\
     osr (rslide_at w2 p) = None) /\
  (forall w q, osr (rslide_at w q) = None ->
     readslide_destroy_cb 0 q w = (Ok tt, w)).
Proof.
  apply (resource_released_once filename_split good_slide "slide.svs:7"
           0%nat one_image (Err InvalidLayer) _ VipsImage_new 1%nat).
  - reflexivity.
  - split.
    + intros rs h Hin. inversion Hin.
    + intros h _. split; reflexivity.
  - vm_compute. reflexivity.
Defined.

(** ** Reading an associated image *)

Ltac split_or H :=
  lazymatch type of H with
  | _ \/ _ => destruct H as [H|H]; split_or H
  | _ => idtac
  end.

Lemma trace_raise_oserror e w : trace (raise_oserror e w) = trace w.
Proof. unfold raise_oserror. destruct (oserror w); reflexivity. Qed.

Lemma buffers_raise_oserror e w : buffers (raise_oserror e w) = buffers w.
Proof. unfold raise_oserror. destruct (oserror w); reflexivity. Qed.

(** The loop that writes the lines only writes lines. *)
Lemma for_loop_write_lines out buf width (fuel : nat) :
  forall i bound w,
  exists w' ws,
    for_loop fuel i bound 1
      (fun y => vips_image_write_line out y buf (y * width)) w = (Ok tt, w') /\
    trace w' = trace w ++ ws /\
    Forall (fun e => is_write_line e = true) ws /\
    buffers w' = buffers w.
Proof.
  induction fuel as [|fuel IH]; intros i bound w; cbn [for_loop].
  - exists w, []. rewrite app_nil_r. repeat split. constructor.
  - destruct (i <? bound).
    + unfold mbind, M_bind, vips_image_write_line at 1, modify.
      destruct (IH (i + 1) bound (emit (EvWriteLine out i buf (i * width)) w))
        as (w' & ws & Hrun & Htr & Hws & Hb).
      exists w', (EvWriteLine out i buf (i * width) :: ws).
      rewrite Hrun, Htr. cbn [trace emit]. rewrite <- app_assoc.
      repeat split; [constructor; [reflexivity|exact Hws]|exact Hb].
    + exists w, []. rewrite app_nil_r. repeat split. constructor.
Qed.

Lemma write_lines_known (ws : list Event) :
  Forall (fun e => is_write_line e = true) ws ->
  ~ Exists reports_unknown ws /\ Forall (fun e => is_array e = false) ws.
Proof.
  induction 1 as [|e ws He _ [IH1 IH2]].
  - split; [intros H; inversion H|constructor].
  - destruct e; try discriminate He. split.
    + intros H. inversion H as [? ? Hx|? ? Hx]; subst; [exact Hx|auto].
    + constructor; [reflexivity|exact IH2].
Qed.

(** C8.  Among the calls [vips__openslide_read_associated] makes, if a
    dimension query of the associated image was answered with [-1] for the
    width or the height, the call fails with [DimensionQuery] and no
    buffer was allocated: the query in [readslide_new] and the one after
    it both come before [VIPS_ARRAY]. *)
Theorem read_associated_unknown_dimensions
    split b filename out name w0 r w1 :
  vips__openslide_read_associated split b filename out name w0 = (r, w1) ->
  exists evs,
    trace w1 = trace w0 ++ evs /\
    (Exists reports_unknown evs ->
     r = Err DimensionQuery /\
     Forall (fun e => is_array e = false) evs /\
     buffers w1 = buffers w0).
Proof.
  intros H. wp_start H. unfold vips__openslide_read_associated.
  wp_run.
  all: try (apply wp_eval;
            match goal with
            | |- context [for_loop ?fuel ?i ?bd 1
                            (fun y => vips_image_write_line ?o y ?bf (y * ?wd))
                            ?w] =>
                destruct (for_loop_write_lines o bf wd fuel i bd w)
                  as (w' & ws & Hrun & Htr & Hws & Hb);
                rewrite Hrun; cbn [fst snd]; rewrite Htr, Hb;
                apply write_lines_known in Hws; destruct Hws as [Hws1 Hws2]
            end).
  all: rewrite ?trace_raise_oserror, ?buffers_raise_oserror;
       cbn [trace buffers emit set_images set_rslides set_handles
            set_oserror set_dim_queries set_buffers];
       rewrite ?trace_raise_oserror, ?buffers_raise_oserror;
       cbn [trace buffers emit set_images set_rslides set_handles
            set_oserror set_dim_queries set_buffers];
       rewrite <- ?app_assoc;
       first [ eexists; split; [reflexivity|]
             | exists []; split; [symmetry; apply app_nil_r|] ];
       cbn [app]; intros Hex;
       rewrite ?Exists_app, ?Exists_cons, ?Exists_nil in Hex;
       cbn [reports_unknown] in Hex; boolp.
  all: try (exfalso; split_or Hex;
            solve [ contradiction | exact (Hws1 Hex) | lia ]).
  all: split; [reflexivity|split; [|reflexivity]].
  all: repeat (apply List.Forall_cons; [reflexivity|]); apply List.Forall_nil.
Qed.

Lemma read_associated_unknown_dimensions_witness :
  let run := vips__openslide_read_associated filename_split forgetful_slide
               "slide.svs:label" 0 (Some "label") one_image in
  (exists evs,
     trace (snd run) = trace one_image ++ evs /\
     (Exists reports_unknown evs ->
      @Err unit DimensionQuery = Err DimensionQuery /\
      Forall (fun e => is_array e = false) evs /\
      buffers (snd run) = buffers one_image)) /\
  Exists reports_unknown (trace (snd run)).
Proof.
  split.
  - apply (read_associated_unknown_dimensions filename_split forgetful_slide
             "slide.svs:label" 0%nat (Some "label") one_image
             (Err DimensionQuery)).
    vm_compute. reflexivity.
  - assert (E : trace (snd (vips__openslide_read_associated filename_split
                  forgetful_slide "slide.svs:label" 0 (Some "label")
                  one_image))
                = [EvOpen 0 "slide.svs";
                   EvAssociatedDimensions (Some "label") 387 463;
                   EvAssociatedDimensions (Some "label") (-1) (-1)])
      by (vm_compute; reflexivity).
    rewrite E.
    apply List.Exists_cons_tl, List.Exists_cons_tl, List.Exists_cons_hd.
    left. reflexivity.
Defined.

(** What a successful open of an associated image has asked OpenSlide: one
    dimension query, answered with a width and a height that are not
    negative. *)
Lemma readslide_new_associated_dims split b filename out w0 p w1 a :
  readslide_new split b filename out w0 = (Ok p, w1) ->
  associated (rslide_at w1 p) = Some a ->
  dim_queries w1 = S (dim_queries w0) /\
  0 <= (associated_dimensions b (dim_queries w0) (Some a)).1 /\
  0 <= (associated_dimensions b (dim_queries w0) (Some a)).2.
Proof.
  intros H.
  change (match Ok p with
          | Ok p =>
              associated (rslide_at w1 p) = Some a ->
              dim_queries w1 = S (dim_queries w0) /\
              0 <= (associated_dimensions b (dim_queries w0) (Some a)).1 /\
              0 <= (associated_dimensions b (dim_queries w0) (Some a)).2
          | Err _ => True
          end).
  wp_start H. wp_readslide_new.
  all: try exact I.
  all: intros Ha; try discriminate Ha.
  all: injection Ha as <-.
  all: match goal with
       | H : associated_dimensions _ _ _ = (_, _) |- _ => rewrite H
       end.
  all: boolp; cbn [fst snd]; repeat split; try reflexivity; lia.
Qed.

Lemma wp_bind_known {A B} (m : M A) (f : A -> M B) Q w a w' :
  m w = (Ok a, w') -> wp (f a) Q w' -> wp (m ≫= f) Q w.
Proof. intros Hm H. apply wp_bind. unfold wp at 1. rewrite Hm. exact H. Qed.

(** C10.  If the answer of the associated-image dimension query does not
    change between calls, then after [readslide_new] has opened an
    associated image the query [vips__openslide_read_associated] makes
    again is answered as the first was, with a width and a height that are
    not negative, so not [-1]: the call does not fail with
    [DimensionQuery]. *)
Theorem read_associated_requery
    split b filename out name w0 raw wa p wb a :
  deterministic_dimensions b ->
  im_open_local out w0 = (Ok raw, wa) ->
  readslide_new split b filename raw wa = (Ok p, wb) ->
  associated (rslide_at wb p) = Some a ->
  let first := associated_dimensions b (dim_queries wa) (Some a) in
  let again := associated_dimensions b (dim_queries wb) (Some a) in
  again = first /\
  (0 <= again.1 /\ 0 <= again.2) /\
  (again.1 <> -1 /\ again.2 <> -1) /\
  fst (vips__openslide_read_associated split b filename out name w0)
    <> Err DimensionQuery.
Proof.
  intros Hdet Hlocal Hnew Ha. cbv zeta.
  destruct (readslide_new_associated_dims _ _ _ _ _ _ _ _ Hnew Ha)
    as (Hq & Hw & Hh).
  rewrite (Hdet (dim_queries wb) (dim_queries wa) (Some a)).
  split; [reflexivity|]. split; [split; assumption|]. split; [lia|].
  change (wp (vips__openslide_read_associated split b filename out name)
            (fun r _ => r <> Err DimensionQuery) w0).
  unfold vips__openslide_read_associated.
  eapply wp_bind_known; [exact Hlocal|].
  eapply wp_bind_known; [exact Hnew|].
  unfold rslide_at, ReadSlide_zero in Ha.
  apply wp_bind. wp_step. rewrite Ha.
  apply wp_bind. wp_step.
  rewrite (Hdet (dim_queries wb) (dim_queries wa) (Some a)).
  destruct (associated_dimensions b (dim_queries wa) (Some a)) as [w h].
  cbn [fst snd] in *.
  repeat wp_step.
  all: boolp; try lia; try discriminate.
  apply wp_eval.
  match goal with
  | |- context [for_loop ?fuel ?i ?bd 1
                  (fun y => vips_image_write_line ?o y ?bf (y * ?wd)) ?w] =>
      destruct (for_loop_write_lines o bf wd fuel i bd w)
        as (w' & ws & Hrun & _);
      rewrite Hrun
  end.
  discriminate.
Qed.

Lemma read_associated_requery_witness :
  let wa := snd (im_open_local 0 one_image) in
  let wb := snd (readslide_new filename_split good_slide "slide.svs:label" 1
                   wa) in
  let first :=
    associated_dimensions good_slide (dim_queries wa) (Some "label") in
  let again :=
    associated_dimensions good_slide (dim_queries wb) (Some "label") in
  again = first /\
  (0 <= again.1 /\ 0 <= again.2) /\
  (again.1 <> -1 /\ again.2 <> -1) /\
  fst (vips__openslide_read_associated filename_split good_slide
         "slide.svs:label" 0 (Some "label") one_image)
    <> Err DimensionQuery.
Proof.
  apply (read_associated_requery filename_split good_slide "slide.svs:label"
           0%nat (Some "label") one_image 1%nat _ 0%nat _ "label").
  - intros k k' name. reflexivity.
  - vm_compute. reflexivity.
  - vm_compute. reflexivity.
  - vm_compute. reflexivity.
Defined.

(** ** Filling a region *)

(** *** The chunks of any region *)

Lemma VIPS_MIN_min (a b : Z) : VIPS_MIN a b = Z.min a b.
Proof. unfold VIPS_MIN. destruct (Z.ltb_spec a b); lia. Qed.

(** The loop runs out of bound before it runs out of fuel: it visits the
    multiples of [step] below [bound], in order. *)
Lemma for_loop_unroll (body : Z -> M unit) (step bound : Z) :
  0 < step ->
  forall (fuel k : nat) (w : World),
    (Z.to_nat ((bound + step - 1) / step) - k <= fuel)%nat ->
    for_loop fuel (step * Z.of_nat k) bound step body w =
    for_each body
      (map (fun j => step * Z.of_nat j)
         (seq k (Z.to_nat ((bound + step - 1) / step) - k))) w.
Proof.
  intros Hstep. set (q := (bound + step - 1) / step).
  assert (Hq1 : q * step <= bound + step - 1).
  { subst q. rewrite Z.mul_comm. apply Z.mul_div_le. lia. }
  assert (Hq2 : bound + step - 1 < (q + 1) * step).
  { subst q. pose proof (Z.mod_pos_bound (bound + step - 1) step Hstep).
    pose proof (Z.div_mod (bound + step - 1) step). lia. }
  induction fuel as [|fuel IH]; intros k w Hfuel.
  - replace (Z.to_nat q - k)%nat with 0%nat by lia. reflexivity.
  - cbn [for_loop]. destruct (Z.ltb_spec (step * Z.of_nat k) bound) as [Hlt|Hge].
    + assert (Hk : Z.of_nat k < q) by nia.
      replace (Z.to_nat q - k)%nat with (S (Z.to_nat q - S k)) by lia.
      cbn [seq map for_each]. unfold mbind, M_bind.
      destruct (body (step * Z.of_nat k) w) as [[[]|e] w']; [|reflexivity].
      replace (step * Z.of_nat k + step) with (step * Z.of_nat (S k)) by lia.
      apply IH. lia.
    + assert (Hk : q <= Z.of_nat k) by nia.
      replace (Z.to_nat q - k)%nat with 0%nat by lia. reflexivity.
Qed.

Lemma for_loop_offsets (body : Z -> M unit) (bound step : Z) (w : World) :
  0 < step ->
  for_loop (Z.to_nat bound) 0 bound step body w =
  for_each body (offsets bound step) w.
Proof.
  intros Hstep. unfold offsets.
  pose proof (for_loop_unroll body step bound Hstep (Z.to_nat bound) 0 w)
    as H.
  rewrite Z.mul_0_r, Nat.sub_0_r in H. apply H.
  destruct (Z.le_gt_cases bound 0) as [Hb|Hb].
  - assert ((bound + step - 1) / step <= 0); [|lia].
    apply Z.lt_succ_r, Z.div_lt_upper_bound; lia.
  - assert ((bound + step - 1) / step <= bound); [|lia].
    apply Z.lt_succ_r, Z.div_lt_upper_bound; nia.
Qed.

(** A loop whose body cannot fail and only adds calls to the trace adds
    the calls of its iterations, one after the other. *)
Lemma for_each_emits {A} (body : A -> M unit) (ev : A -> list Event)
    (l : list A) :
  (forall a w, exists w',
     body a w = (Ok tt, w') /\ trace w' = trace w ++ ev a /\
     rslides w' = rslides w) ->
  forall w, exists w',
    for_each body l w = (Ok tt, w') /\
    trace w' = trace w ++ (l ≫= ev) /\
    rslides w' = rslides w.
Proof.
  intros Hbody. induction l as [|a l IH]; intros w.
  - exists w. cbn. rewrite app_nil_r. done.
  - cbn [for_each]. unfold mbind at 1, M_bind at 1.
    destruct (Hbody a w) as (w1 & Hrun & Htr & Hrs). rewrite Hrun.
    destruct (IH w1) as (w2 & Hrun2 & Htr2 & Hrs2).
    exists w2. rewrite Hrun2, Htr2, Htr, Hrs2, Hrs.
    rewrite bind_cons, app_assoc. done.
Qed.

Lemma map_bind_singleton {A B C} (f : C -> Event) (g : A -> B -> C)
    (l1 : list A) (l2 : list B) :
  (l1 ≫= fun y => l2 ≫= fun x => [f (g y x)]) =
  map f (l1 ≫= fun y => l2 ≫= fun x => [g y x]).
Proof.
  induction l1 as [|y l1 IH]; [reflexivity|].
  rewrite !bind_cons, map_app, IH. f_equal.
  clear IH. induction l2 as [|x l2 IH]; [reflexivity|].
  rewrite !bind_cons. cbn [app map]. f_equal. exact IH.
Qed.

(** The partition of C1, for every region.  [fill_region] reads the
    chunks of the row-major grid of the rectangle, each of at most 256 by
    256 and of the size of what remains, at the source origin scaled by
    the downsample and into the address of the chunk in the region; then
    it asks for the error of the handle, once. *)
Lemma fill_region_trace b out rslide w :
  let r := valid out in
  let rs := rslide_at w rslide in
  trace (snd (fill_region b out rslide w)) =
  trace w ++ map (chunk_read out rs) (chunk_grid (width r) (height r))
          ++ [EvGetError].
Proof.
  cbv zeta. unfold fill_region.
  unfold mbind at 1, M_bind at 1, get_rslide at 1.
  set (rs := rslide_at w rslide). set (r := valid out).
  unfold mbind at 1, M_bind at 1.
  set (inner := fun y : Z =>
         for_loop (Z.to_nat (width r)) 0 (width r) TILE_WIDTH (fun x =>
           openslide_read_region b
             (VIPS_REGION_ADDR out (left r + x) (top r + y))
             (double_to_int (double_mul (inject_Z (left r + x)) (downsample rs)))
             (double_to_int (double_mul (inject_Z (top r + y)) (downsample rs)))
             (layer rs)
             (VIPS_MIN TILE_WIDTH (width r - x))
             (VIPS_MIN TILE_HEIGHT (height r - y)))).
  assert (Hinner : forall y w0, exists w',
            inner y w0 = (Ok tt, w') /\
            trace w' = trace w0 ++
              (offsets (width r) TILE_WIDTH ≫= fun x =>
                 [chunk_read out rs
                    (x, y, Z.min TILE_WIDTH (width r - x),
                     Z.min TILE_HEIGHT (height r - y))]) /\
            rslides w' = rslides w0).
  { intros y w0. subst inner. cbv beta.
    rewrite for_loop_offsets by reflexivity.
    apply for_each_emits. intros x w2. eexists. split; [reflexivity|].
    unfold openslide_read_region, modify. cbn [snd].
    rewrite trace_raise_oserror. cbn [trace emit chunk_read].
    rewrite !VIPS_MIN_min. split; [reflexivity|].
    unfold raise_oserror. destruct (oserror _); reflexivity. }
  change (for_loop (Z.to_nat (height r)) 0 (height r) TILE_HEIGHT _ w)
    with (for_loop (Z.to_nat (height r)) 0 (height r) TILE_HEIGHT inner w).
  rewrite for_loop_offsets by reflexivity.
  destruct (for_each_emits inner _ (offsets (height r) TILE_HEIGHT) Hinner w)
    as (w' & Hrun & Htr & _).
  rewrite Hrun. unfold mbind, M_bind, openslide_get_error.
  assert (Hgrid :
    (offsets (height r) TILE_HEIGHT ≫= fun y =>
       offsets (width r) TILE_WIDTH ≫= fun x =>
         [chunk_read out rs
            (x, y, Z.min TILE_WIDTH (width r - x),
             Z.min TILE_HEIGHT (height r - y))]) =
    map (chunk_read out rs) (chunk_grid (width r) (height r))).
  { unfold chunk_grid.
    apply (map_bind_singleton (chunk_read out rs)
             (fun y x => (x, y, Z.min TILE_WIDTH (width r - x),
                          Z.min TILE_HEIGHT (height r - y)))). }
  destruct (oserror w'); cbn [snd fail mret M_ret trace emit];
    rewrite Htr, Hgrid, <- app_assoc; reflexivity.
Qed.

Lemma elem_of_offsets (n step x : Z) :
  0 < step ->
  x ∈ offsets n step <-> exists k, 0 <= k /\ x = step * k /\ x < n.
Proof.
  intros Hstep. unfold offsets. set (q := (n + step - 1) / step).
  assert (Hq1 : q * step <= n + step - 1).
  { subst q. rewrite Z.mul_comm. apply Z.mul_div_le. lia. }
  assert (Hq2 : n + step - 1 < (q + 1) * step).
  { subst q. pose proof (Z.mod_pos_bound (n + step - 1) step Hstep).
    pose proof (Z.div_mod (n + step - 1) step). lia. }
  rewrite list_elem_of_In, in_map_iff. split.
  - intros (j & <- & Hj). apply in_seq in Hj. exists (Z.of_nat j).
    split; [lia|]. split; [reflexivity|]. nia.
  - intros (k & Hk & -> & Hlt). exists (Z.to_nat k).
    rewrite Z2Nat.id by lia. split; [reflexivity|].
    apply in_seq. nia.
Qed.

Lemma elem_of_chunk_grid (w h x y cw ch : Z) :
  (x, y, cw, ch) ∈ chunk_grid w h <->
  x ∈ offsets w TILE_WIDTH /\ y ∈ offsets h TILE_HEIGHT /\
  cw = Z.min TILE_WIDTH (w - x) /\ ch = Z.min TILE_HEIGHT (h - y).
Proof.
  unfold chunk_grid. rewrite list_elem_of_bind. split.
  - intros (y' & Hin & Hy). apply list_elem_of_bind in Hin.
    destruct Hin as (x' & Hin & Hx). apply list_elem_of_singleton in Hin.
    injection Hin as -> -> -> ->. done.
  - intros (Hx & Hy & -> & ->). exists y. split; [|exact Hy].
    apply list_elem_of_bind. exists x. split; [|exact Hx].
    apply list_elem_of_singleton. reflexivity.
Qed.

(** The chunks lie in the rectangle and none is empty or larger than a
    tile. *)
Lemma chunk_grid_bounds (w h x y cw ch : Z) :
  (x, y, cw, ch) ∈ chunk_grid w h ->
  (0 <= x /\ 0 < cw <= 256 /\ x + cw <= w) /\
  (0 <= y /\ 0 < ch <= 256 /\ y + ch <= h).
Proof.
  rewrite elem_of_chunk_grid. unfold TILE_WIDTH, TILE_HEIGHT.
  rewrite !elem_of_offsets by lia.
  intros ((k & Hk & -> & Hx) & (j & Hj & -> & Hy) & -> & ->). lia.
Qed.

(** No gaps and no overlaps: a pixel of the rectangle lies in the chunk
    that starts at the multiples of 256 below it, and in no other. *)
Lemma chunk_grid_covers (w h px py : Z) :
  0 <= px < w -> 0 <= py < h ->
  let c := (256 * (px / 256), 256 * (py / 256),
            Z.min 256 (w - 256 * (px / 256)),
            Z.min 256 (h - 256 * (py / 256))) in
  c ∈ chunk_grid w h /\
  (forall x y cw ch,
     (x, y, cw, ch) ∈ chunk_grid w h ->
     (x <= px < x + cw /\ y <= py < y + ch) <-> (x, y, cw, ch) = c).
Proof.
  intros Hpx Hpy. cbv zeta.
  pose proof (Z.div_mod px 256). pose proof (Z.mod_pos_bound px 256).
  pose proof (Z.div_mod py 256). pose proof (Z.mod_pos_bound py 256).
  assert (0 <= px / 256) by (apply Z.div_pos; lia).
  assert (0 <= py / 256) by (apply Z.div_pos; lia).
  split.
  - apply elem_of_chunk_grid. unfold TILE_WIDTH, TILE_HEIGHT.
    rewrite !elem_of_offsets by lia.
    split; [exists (px / 256); lia|].
    split; [exists (py / 256); lia|]. done.
  - intros x y cw ch Hin. apply elem_of_chunk_grid in Hin.
    unfold TILE_WIDTH, TILE_HEIGHT in Hin.
    rewrite !elem_of_offsets in Hin by lia.
    destruct Hin as ((k & Hk & -> & Hx) & (j & Hj & -> & Hy) & -> & ->).
    split.
    + intros [Hcx Hcy].
      assert (k = px / 256) by nia. assert (j = py / 256) by nia.
      subst k j. reflexivity.
    + intros E. injection E as Ek Ej. lia.
Qed.

(** The grid of the specification's example. *)
Lemma chunk_grid_300 :
  chunk_grid 300 300 =
  [(0, 0, 256, 256); (256, 0, 44, 256); (0, 256, 256, 44);
   (256, 256, 44, 44)].
Proof. reflexivity. Qed.

(** Where the pixels are right: a region of at most one tile, the only
    kind the tile cache in front of [fill_region] asks for, is filled by
    one read of its rectangle. *)
Lemma fill_region_single_tile b out rslide w :
  let r := valid out in
  let rs := rslide_at w rslide in
  0 < width r <= 256 -> 0 < height r <= 256 ->
  trace (snd (fill_region b out rslide w)) =
    trace w ++ [chunk_read out rs (0, 0, width r, height r); EvGetError] /\
  forall a,
    buffer_after b [chunk_read out rs (0, 0, width r, height r)] a =
    single_read b out rs a.
Proof.
  cbv zeta. intros Hw Hh.
  assert (Hoff : forall n, 0 < n <= 256 -> offsets n 256 = [0]).
  { intros n Hn. unfold offsets.
    replace ((n + 256 - 1) / 256) with 1
      by (apply Z.div_unique with (n - 1); lia).
    reflexivity. }
  split.
  - pose proof (fill_region_trace b out rslide w) as H. cbv zeta in H.
    rewrite H. unfold chunk_grid, TILE_WIDTH, TILE_HEIGHT.
    rewrite !Hoff by lia. cbn [mbind list_bind app map].
    rewrite !Z.sub_0_r, !Z.min_r by lia. reflexivity.
  - intros a. unfold buffer_after, single_read, chunk_read.
    cbn [fold_left apply_event]. rewrite !Z.add_0_r. reflexivity.
Qed.

(** *** The chunks of a region, and the region of the specification *)



(** * Further properties of the reader *)

(** ** vips__openslide_isslide *)

Lemma bind_run {A B} (m : M A) (f : A -> M B) (w : World) :
  (m ≫= f) w =
  match m w with
  | (Ok a, w') => f a w'
  | (Err e, w') => (Err e, w')
  end.
Proof. reflexivity. Qed.

(** X1.  [vips__openslide_isslide] never fails.  It answers yes exactly
    when OpenSlide opens the file and reports a vendor that is not
    "generic-tiff".  Whatever it answers, it has closed the handle it
    opened, has opened no other, and has left the images and the structs
    alone. *)
Theorem isslide_accepts b filename w :
  let run := vips__openslide_isslide b filename w in
  let h := handles w in
  (exists ok, fst run = Ok ok /\
     (ok = true <->
      opens b filename = true /\
      exists v, openslide_get_property_value b OPENSLIDE_PROPERTY_NAME_VENDOR
                = Some v /\ v <> "generic-tiff")) /\
  trace (snd run) =
    trace w ++ (if opens b filename
                then [EvOpen h filename; EvClose h] else []) /\
  images (snd run) = images w /\ rslides (snd run) = rslides w.
Proof.
  cbv zeta. unfold vips__openslide_isslide. rewrite bind_run.
  unfold openslide_open. destruct (opens b filename) eqn:Hopen.
  - rewrite bind_run. unfold openslide_close, modify, mret, M_ret.
    cbn [fst snd trace images rslides emit set_handles].
    split; [|split; [rewrite <- app_assoc; reflexivity|done]].
    eexists. split; [reflexivity|].
    destruct (openslide_get_property_value b OPENSLIDE_PROPERTY_NAME_VENDOR)
      as [v|].
    + destruct (String.eqb_spec v "generic-tiff") as [->|Hne]; cbn [negb].
      * split; [discriminate|]. intros (_ & v' & E & Hv). congruence.
      * split; [|reflexivity]. intros _. split; [reflexivity|].
        exists v. done.
    + split; [discriminate|]. intros (_ & v' & E & _). discriminate E.
  - unfold mret, M_ret. cbn [fst snd]. rewrite app_nil_r.
    split; [|done]. exists false. split; [reflexivity|].
    split; [discriminate|]. intros (E & _). discriminate E.
Qed.

(** ** fill_region on any region *)

(** A loop whose body cannot fail and only makes calls: the calls of the
    iterations follow one another, the store is not touched, and the
    handle ends without an error exactly when it had none and no iteration
    left one. *)
Lemma for_each_frame {A} (body : A -> M unit) (ev : A -> list Event)
    (clean : A -> Prop) (l : list A) :
  (forall a w, exists w',
     body a w = (Ok tt, w') /\ trace w' = trace w ++ ev a /\
     same_store w w' /\
     (oserror w' = None <-> oserror w = None /\ clean a)) ->
  forall w, exists w',
    for_each body l w = (Ok tt, w') /\
    trace w' = trace w ++ (l ≫= ev) /\
    same_store w w' /\
    (oserror w' = None <-> oserror w = None /\ forall a, a ∈ l -> clean a).
Proof.
  intros Hbody. induction l as [|a l IH]; intros w.
  - exists w. cbn. rewrite app_nil_r. repeat split; try tauto.
    intros a Ha. inversion Ha.
  - cbn [for_each]. rewrite bind_run.
    destruct (Hbody a w) as (w1 & Hrun & Htr & Hs & He). rewrite Hrun.
    destruct (IH w1) as (w2 & Hrun2 & Htr2 & Hs2 & He2).
    exists w2. rewrite Hrun2, Htr2, Htr, bind_cons, app_assoc.
    split; [reflexivity|]. split; [reflexivity|].
    split.
    + destruct Hs as (?&?&?&?&?), Hs2 as (?&?&?&?&?).
      repeat split; congruence.
    + rewrite He2, He. split.
      * intros [[H0 Ha] Hl]. split; [exact H0|].
        intros a' Hin. apply list_elem_of_In in Hin.
        destruct Hin as [<-|Hin]; [exact Ha|].
        apply Hl, list_elem_of_In, Hin.
      * intros [H0 Hl]. split; [split; [exact H0|]|].
        -- apply Hl. left.
        -- intros a' Hin. apply Hl. right. exact Hin.
Qed.



Lemma offsets_length (n step : Z) :
  length (offsets n step) = Z.to_nat ((n + step - 1) / step).
Proof. unfold offsets. rewrite length_map, length_seq. reflexivity. Qed.

Lemma bind_singleton_length {A B} (f : A -> B) (l : list A) :
  length (l ≫= fun x => [f x]) = length l.
Proof.
  induction l as [|a l IH]; [reflexivity|].
  rewrite bind_cons, length_app, IH. reflexivity.
Qed.

Lemma chunk_grid_length (w h : Z) :
  length (chunk_grid w h) =
  (Z.to_nat ((h + 255) / 256) * Z.to_nat ((w + 255) / 256))%nat.
Proof.
  unfold chunk_grid, TILE_WIDTH, TILE_HEIGHT.
  replace (h + 255) with (h + 256 - 1) by lia.
  replace (w + 255) with (w + 256 - 1) by lia.
  rewrite <- !offsets_length.
  induction (offsets h 256) as [|y l IH]; [reflexivity|].
  rewrite bind_cons, length_app, IH, bind_singleton_length. reflexivity.
Qed.

(** X2.  For every region, [fill_region] reads the chunks of a row-major
    grid of the rectangle and then asks for the error of the handle, once.
    A chunk is never empty, never larger than a tile, and lies in the
    rectangle; every pixel of the rectangle lies in exactly one chunk;
    there are [ceil(height / 256) * ceil(width / 256)] reads, none for a
    rectangle without pixels. *)
Theorem fill_region_partition b out rslide w :
  let r := valid out in
  let rs := rslide_at w rslide in
  let grid := chunk_grid (width r) (height r) in
  trace (snd (fill_region b out rslide w)) =
    trace w ++ map (chunk_read out rs) grid ++ [EvGetError] /\
  (forall x y cw ch, (x, y, cw, ch) ∈ grid ->
     (0 <= x /\ 0 < cw <= 256 /\ x + cw <= width r) /\
     (0 <= y /\ 0 < ch <= 256 /\ y + ch <= height r)) /\
  (forall px py, 0 <= px < width r -> 0 <= py < height r ->
     exists c, c ∈ grid /\
       forall x y cw ch, (x, y, cw, ch) ∈ grid ->
         (x <= px < x + cw /\ y <= py < y + ch) <-> (x, y, cw, ch) = c) /\
  length grid =
    (Z.to_nat ((height r + 255) / 256) * Z.to_nat ((width r + 255) / 256))%nat /\
  (width r <= 0 \/ height r <= 0 -> grid = []).
Proof.
  cbv zeta. split; [apply fill_region_trace|].
  split; [intros x y cw ch; apply chunk_grid_bounds|].
  split.
  { intros px py Hx Hy. eexists. apply (chunk_grid_covers _ _ _ _ Hx Hy). }
  split; [apply chunk_grid_length|].
  intros Hempty. apply length_zero_iff_nil. rewrite chunk_grid_length.
  destruct Hempty as [Hw|Hh].
  - assert ((width (valid out) + 255) / 256 <= 0); [|lia].
    apply Z.lt_succ_r, Z.div_lt_upper_bound; lia.
  - assert ((height (valid out) + 255) / 256 <= 0); [|lia].
    apply Z.lt_succ_r, Z.div_lt_upper_bound; lia.
Qed.


(** ** readslide_new without a mode, and where it stops early *)

(** X4.  With an empty mode, [readslide_new] selects layer 0 and checks
    it against nothing: the layer count is not looked at.  Once OpenSlide
    has opened the slide, the call succeeds exactly when the width, height
    and downsample reported for layer 0 are not negative and the width and
    height fit an [int]; it never fails with [InvalidLayer],
    [InvalidAssociatedName] or [OpenFailure]. *)
Theorem readslide_new_default_layer split b filename name out w0 r w1 :
  split filename = (name, "") ->
  opens b name = true ->
  readslide_new split b filename out w0 = (r, w1) ->
  let p := length (rslides w0) in
  let rs := rslide_at w1 p in
  let '(w, h) := openslide_get_layer_dimensions b 0 in
  let ds := openslide_get_layer_downsample b 0 in
  (associated rs = None /\ layer rs = 0 /\ downsample rs = ds) /\
  (r = Ok p <-> dimensions_known w h ds /\ dimensions_fit w h) /\
  (r = Err DimensionQuery <-> ~ dimensions_known w h ds) /\
  (r = Err DimensionOverflow <->
     dimensions_known w h ds /\ ~ dimensions_fit w h) /\
  r <> Err InvalidLayer /\ r <> Err InvalidAssociatedName /\
  r <> Err OpenFailure.
Proof.
  intros Hsplit Hopen H.
  destruct (openslide_get_layer_dimensions b 0) as [w h] eqn:Hdims.
  wp_start H. unfold readslide_new.
  rewrite Hsplit, background_rgb_set.
  change (strtol "" 10) with (0, "").
  cbn [nonempty negb andb]. change (wrap32 0) with 0.
  wp_run.
  all: cbv zeta; wp_heap; boolp.
  all: try (replace w with z in * by congruence;
            replace h with z0 in * by congruence).
  all: finish.
Qed.

Lemma readslide_new_default_layer_witness :
  let run := readslide_new filename_split good_slide "slide.svs" 0
               one_image in
  let rs := rslide_at (snd run) 0 in
  (associated rs = None /\ layer rs = 0 /\ downsample rs = 1%Q) /\
  (fst run = Ok 0%nat <->
     dimensions_known 2000 1500 1 /\ dimensions_fit 2000 1500) /\
  (fst run = Err DimensionQuery <-> ~ dimensions_known 2000 1500 1) /\
  (fst run = Err DimensionOverflow <->
     dimensions_known 2000 1500 1 /\ ~ dimensions_fit 2000 1500) /\
  fst run <> Err InvalidLayer /\ fst run <> Err InvalidAssociatedName /\
  fst run <> Err OpenFailure.
Proof.
  apply (readslide_new_default_layer filename_split good_slide "slide.svs"
           "slide.svs" 0%nat one_image).
  - reflexivity.
  - reflexivity.
  - vm_compute. reflexivity.
Defined.

(** X5.  When [readslide_new] fails because the slide does not open, the
    layer is out of range or the associated image is not known, it has not
    touched the header of the image: metadata, fields, demand hint,
    generate callback and cache are what they were.  It has asked for no
    dimensions, and the only call it has made is the [openslide_open], if
    that gave a handle. *)
Theorem readslide_new_early_failure split b filename out w0 r w1 im0 :
  images w0 !! out = Some im0 ->
  readslide_new split b filename out w0 = (r, w1) ->
  r = Err OpenFailure \/ r = Err InvalidLayer \/
  r = Err InvalidAssociatedName ->
  let im := image_at w1 out in
  let name := (split filename).1 in
  (meta im = meta im0 /\ fields im = fields im0 /\ dhint im = dhint im0 /\
   generate_cb im = generate_cb im0 /\ tile_cache im = tile_cache im0) /\
  dim_queries w1 = dim_queries w0 /\
  trace w1 = trace w0 ++
    (if opens b name then [EvOpen (handles w0) name] else []) /\
  (r = Err OpenFailure <-> opens b name = false).
Proof.
  intros Him H.
  destruct (split filename) as [name mode] eqn:Hsplit.
  wp_start H. unfold readslide_new.
  rewrite Hsplit, background_rgb_set.
  wp_run.
  all: intros Hr; split_or Hr; try discriminate Hr.
  all: cbv zeta; cbn [fst snd]; wp_heap; wp_image Him.
  all: match goal with
       | H : opens _ _ = _ |- _ => rewrite H
       end.
  all: rewrite ?app_nil_r.
  all: repeat split; try reflexivity; congruence.
Qed.

Lemma readslide_new_early_failure_witness :
  let run := readslide_new filename_split good_slide "slide.svs:7" 0
               one_image in
  let im := image_at (snd run) 0 in
  (meta im = meta VipsImage_new /\ fields im = fields VipsImage_new /\
   dhint im = dhint VipsImage_new /\
   generate_cb im = generate_cb VipsImage_new /\
   tile_cache im = tile_cache VipsImage_new) /\
  dim_queries (snd run) = dim_queries one_image /\
  trace (snd run) = trace one_image ++
    (if opens good_slide "slide.svs" then [EvOpen 0 "slide.svs"] else []) /\
  (fst run = Err OpenFailure <-> opens good_slide "slide.svs" = false).
Proof.
  apply (readslide_new_early_failure filename_split good_slide "slide.svs:7"
           0%nat one_image (Err InvalidLayer)).
  - reflexivity.
  - vm_compute. reflexivity.
  - right. left. reflexivity.
Defined.

(** ** The metadata of an opened slide *)

Lemma foldl_set_meta_lookup (v : string -> MetaValue) (l : list string)
    (im : VipsImage) (k : string) :
  meta (foldl (fun im p => set_meta p (v p) im) im l) !! k =
  if decide (k ∈ l) then Some (v k) else meta im !! k.
Proof.
  revert im; induction l as [|a l IH]; intros im.
  - cbn [foldl]. destruct (decide (k ∈ [])) as [Hin|_]; [|reflexivity].
    inversion Hin.
  - cbn [foldl]. rewrite IH. cbn [meta set_meta].
    destruct (decide (k ∈ l)) as [Hin|Hin].
    + rewrite decide_True by (right; exact Hin). reflexivity.
    + destruct (decide (k = a)) as [->|Hne].
      * rewrite decide_True by left. apply lookup_insert_eq.
      * rewrite decide_False by (rewrite elem_of_cons; tauto).
        apply lookup_insert_ne. congruence.
Qed.

(** X6.  The metadata of an image [readslide_new] has set up.  Every
    property of the slide is there under its own name, with the value
    OpenSlide gives for it; "slide-associated-images" holds the names of
    the associated images joined by ", ", also when the slide has a
    property of that name.  "background-rgb" and the entry of the selector
    ("slide-layer" or "slide-associated-image") are there unless a property
    of the slide has the same name, which then replaces them.  Every other
    key is what it was. *)
Theorem readslide_new_metadata split b filename out w0 p w1 im0 :
  images w0 !! out = Some im0 ->
  readslide_new split b filename out w0 = (Ok p, w1) ->
  let im := image_at w1 out in
  let names := openslide_get_property_names b in
  let sel := selector_entry (rslide_at w1 p) in
  meta im !! "slide-associated-images" =
    Some (MetaString (Some (g_strjoinv ", "
            (openslide_get_associated_image_names b)))) /\
  (forall k, k ∈ names -> k <> "slide-associated-images" ->
     meta im !! k = Some (MetaString (openslide_get_property_value b k))) /\
  ("background-rgb" ∉ names ->
     meta im !! "background-rgb" = Some (MetaInt (background_rgb b))) /\
  (sel.1 ∉ names -> meta im !! sel.1 = Some sel.2) /\
  (forall k, k ∉ names -> k <> "slide-associated-images" ->
     k <> "background-rgb" -> k <> sel.1 ->
     meta im !! k = meta im0 !! k).
Proof.
  intros Him H.
  change (match Ok p with
          | Ok p =>
              let im := image_at w1 out in
              let names := openslide_get_property_names b in
              let sel := selector_entry (rslide_at w1 p) in
              meta im !! "slide-associated-images" =
                Some (MetaString (Some (g_strjoinv ", "
                        (openslide_get_associated_image_names b)))) /\
              (forall k, k ∈ names -> k <> "slide-associated-images" ->
                 meta im !! k =
                 Some (MetaString (openslide_get_property_value b k))) /\
              ("background-rgb" ∉ names ->
                 meta im !! "background-rgb" =
                 Some (MetaInt (background_rgb b))) /\
              (sel.1 ∉ names -> meta im !! sel.1 = Some sel.2) /\
              (forall k, k ∉ names -> k <> "slide-associated-images" ->
                 k <> "background-rgb" -> k <> sel.1 ->
                 meta im !! k = meta im0 !! k)
          | Err _ => True
          end).
  wp_start H. wp_readslide_new.
  all: try exact I.
  all: cbv zeta; unfold selector_entry; wp_heap; cbn [fst snd];
       wp_image Him.
  all: cbn [meta set_meta set_fields set_dhint add_close_cb].
  all: split; [apply lookup_insert_eq|].
  all: split; [intros k Hin Hk; rewrite lookup_insert_ne by congruence;
               rewrite foldl_set_meta_lookup, decide_True by exact Hin;
               reflexivity|].
  all: split; [intros Hnin; rewrite lookup_insert_ne by discriminate;
               rewrite foldl_set_meta_lookup, decide_False by exact Hnin;
               cbn [meta set_meta set_fields set_dhint add_close_cb];
               apply lookup_insert_eq|].
  all: split; [intros Hnin; rewrite lookup_insert_ne by discriminate;
               rewrite foldl_set_meta_lookup, decide_False by exact Hnin;
               cbn [meta set_meta set_fields set_dhint add_close_cb];
               rewrite lookup_insert_ne by discriminate;
               apply lookup_insert_eq|].
  all: intros k Hnin Hk1 Hk2 Hk3; rewrite lookup_insert_ne by congruence;
       rewrite foldl_set_meta_lookup, decide_False by exact Hnin;
       cbn [meta set_meta set_fields set_dhint add_close_cb];
       rewrite !lookup_insert_ne by congruence; reflexivity.
Qed.

Lemma readslide_new_metadata_witness :
  let run := readslide_new filename_split good_slide "slide.svs:label" 0
               one_image in
  let im := image_at (snd run) 0 in
  let names := openslide_get_property_names good_slide in
  let sel := selector_entry (rslide_at (snd run) 0) in
  meta im !! "slide-associated-images" =
    Some (MetaString (Some (g_strjoinv ", "
            (openslide_get_associated_image_names good_slide)))) /\
  (forall k, k ∈ names -> k <> "slide-associated-images" ->
     meta im !! k =
     Some (MetaString (openslide_get_property_value good_slide k))) /\
  ("background-rgb" ∉ names ->
     meta im !! "background-rgb" = Some (MetaInt (background_rgb good_slide))) /\
  (sel.1 ∉ names -> meta im !! sel.1 = Some sel.2) /\
  (forall k, k ∉ names -> k <> "slide-associated-images" ->
     k <> "background-rgb" -> k <> sel.1 ->
     meta im !! k = meta VipsImage_new !! k).
Proof.
  apply (readslide_new_metadata filename_split good_slide "slide.svs:label"
           0%nat one_image 0%nat).
  - reflexivity.
  - vm_compute. reflexivity.
Defined.

(** ** The calls of vips__openslide_read_header *)

Lemma lookup_foldl_alter_ne {A} (out i : nat)
    (g : A -> VipsImage -> VipsImage) (l : list A) (ims : list VipsImage) :
  i <> out ->
  foldl (fun ims p => alter (g p) out ims) ims l !! i = ims !! i.
Proof.
  intros Hne. revert ims; induction l as [|a l IH]; intros ims; simpl.
  - reflexivity.
  - rewrite IH. apply list_lookup_alter_ne. congruence.
Qed.

Lemma length_foldl_alter {A} (out : nat)
    (g : A -> VipsImage -> VipsImage) (l : list A) (ims : list VipsImage) :
  length (foldl (fun ims p => alter (g p) out ims) ims l) = length ims.
Proof.
  revert ims; induction l as [|a l IH]; intros ims; simpl.
  - reflexivity.
  - rewrite IH. apply length_alter.
Qed.

Lemma filter_snoc_quiet (l : list Event) (e : Event) :
  is_get_error e = false ->
  filter (fun e => is_get_error e = false) (l ++ [e]) =
  filter (fun e => is_get_error e = false) l ++ [e].
Proof.
  intros He. rewrite filter_app. f_equal.
  rewrite filter_cons, filter_nil. rewrite decide_True by exact He.
  reflexivity.
Qed.

(** X7.  Reading the header opens the slide at most once and asks at most
    once for the dimensions of an associated image; apart from asking for
    the text of an error, it makes no other call: no pixel is read, no
    buffer allocated, nothing closed.  It allocates one [ReadSlide], also
    when it fails, and leaves the other images, the structs that were
    there, and the error on the handle alone, whatever [layer] and
    [associated] it is given. *)
Theorem read_header_calls split b filename out lyr assoc w0 :
  let run := vips__openslide_read_header split b filename out lyr assoc w0 in
  let w1 := snd run in
  let name := (split filename).1 in
  let quiet := fun e => is_get_error e = false in
  (exists evs,
     filter quiet (trace w1) = filter quiet (trace w0) ++ evs /\
     (evs = [] /\ fst run = Err OpenFailure \/
      evs = [EvOpen (handles w0) name] \/
      exists a,
        let d := associated_dimensions b (dim_queries w0) (Some a) in
        evs = [EvOpen (handles w0) name;
               EvAssociatedDimensions (Some a) d.1 d.2])) /\
  (forall i, i <> out -> images w1 !! i = images w0 !! i) /\
  length (images w1) = length (images w0) /\
  (exists rs, rslides w1 = rslides w0 ++ [rs]) /\
  buffers w1 = buffers w0 /\ oserror w1 = oserror w0.
Proof.
  cbv zeta.
  destruct (vips__openslide_read_header split b filename out lyr assoc w0)
    as [r w1] eqn:H.
  split; [|split; [|split; [|split; [|split]]]]; revgoals.
  all: destruct (split filename) as [name mode] eqn:Hsplit.
  all: wp_start H; unfold vips__openslide_read_header, readslide_new.
  all: rewrite Hsplit, background_rgb_set.
  all: wp_run.
  all: cbn [fst snd].
  (* oserror, buffers, structs, images *)
  all: try reflexivity.
  all: try (eexists; reflexivity).
  all: try (repeat first [rewrite length_alter | rewrite length_foldl_alter];
            reflexivity).
  all: try (intros i Hi;
            repeat first [ rewrite list_lookup_alter_ne by congruence
                         | rewrite lookup_foldl_alter_ne by congruence ];
            reflexivity).
  (* the calls *)
  all: rewrite ?filter_snoc_quiet by reflexivity.
  all: rewrite <- ?app_assoc; cbn [app].
  all: eexists; split; [first [reflexivity | symmetry; apply app_nil_r]|].
  all: first [ left; split; reflexivity
             | right; left; reflexivity
             | right; right; eexists; cbv zeta;
               match goal with
               | H : associated_dimensions _ _ _ = _ |- _ => rewrite H
               end; reflexivity ].
Qed.

(** ** What vips__openslide_read_file sets up *)

Lemma filter_snoc_false (P : Event -> bool) (l : list Event) (e : Event) :
  P e = false ->
  filter (fun e => P e = true) (l ++ [e]) = filter (fun e => P e = true) l.
Proof.
  intros He. rewrite filter_app, filter_cons, filter_nil.
  rewrite decide_False by (rewrite He; discriminate). apply app_nil_r.
Qed.

(** The images after [im_open_local]: the new one sits behind those that
    were there. *)
Ltac wp_images Him :=
  unfold image_at;
  cbn [images rslides set_images set_rslides set_handles set_oserror
       set_dim_queries set_buffers emit];
  repeat first
    [ rewrite alter_snoc_len by apply length_alter
    | rewrite foldl_alter_snoc_len by apply length_alter ];
  repeat first
    [ rewrite list_lookup_alter_eq
    | rewrite list_lookup_alter_ne by lia
    | rewrite lookup_snoc_len by apply length_alter
    | rewrite lookup_app_l by (rewrite length_alter; lia) ];
  rewrite ?Him;
  cbn [fmap option_fmap option_map default from_option id].

(** X8.  [vips__openslide_read_file] is lazy: it reads no pixel and
    allocates no buffer.  It sets the slide up on a new image [raw] that
    [out] owns; the handler that releases the slide is connected to [raw],
    not to [out].  When it succeeds, [fill_region] is registered on [raw]
    with the new [ReadSlide], and [out] has a cache fed from [raw]; when
    it fails, [raw] has no generate callback and the cache of [out] is
    what it was. *)
Theorem read_file_lazy split b filename out lyr w0 r w1 im0 :
  images w0 !! out = Some im0 ->
  vips__openslide_read_file split b filename out lyr w0 = (r, w1) ->
  let raw := length (images w0) in
  let p := length (rslides w0) in
  filter (fun e => is_read_region e = true) (trace w1) =
    filter (fun e => is_read_region e = true) (trace w0) /\
  buffers w1 = buffers w0 /\
  length (images w1) = S (length (images w0)) /\
  locals (image_at w1 out) = locals im0 ++ [raw] /\
  close_cbs (image_at w1 raw) = [p] /\
  close_cbs (image_at w1 out) = close_cbs im0 /\
  match r with
  | Ok _ =>
      generate_cb (image_at w1 raw) = Some p /\
      cache_source <$> tile_cache (image_at w1 out) = Some raw
  | Err e =>
      e <> ReadFailure /\
      generate_cb (image_at w1 raw) = None /\
      tile_cache (image_at w1 out) = tile_cache im0
  end.
Proof.
  intros Him H.
  assert (Hout : (out < length (images w0))%nat)
    by (eapply lookup_lt_Some; eauto).
  wp_start H. unfold vips__openslide_read_file.
  wp_run.
  all: cbv zeta; cbn [fst snd].
  all: split; [rewrite ?filter_snoc_false by reflexivity; reflexivity|].
  all: split; [reflexivity|].
  all: split;
       [repeat first [ rewrite length_alter | rewrite length_foldl_alter ];
        rewrite length_app, length_alter; cbn [length]; lia|].
  all: wp_images Him.
  all: cbn [fields meta dhint close_cbs generate_cb tile_cache locals
            set_fields set_meta set_dhint add_close_cb set_generate_cb
            set_tile_cache add_local cache_source].
  all: try match goal with
       | |- context [foldl ?f ?im ?l] =>
           destruct (foldl_set_meta_fields (fun p => p)
                       (fun p => MetaString (openslide_get_property_value b p))
                       l im) as (_ & _ & Hc & Hg & _);
           cbn beta in Hc, Hg; rewrite ?Hc, ?Hg; clear Hc Hg
       end.
  all: cbn [fields meta dhint close_cbs generate_cb tile_cache locals
            set_fields set_meta set_dhint add_close_cb set_generate_cb
            set_tile_cache add_local VipsImage_new cache_source app].
  all: repeat split; try reflexivity; discriminate.
Qed.

Lemma read_file_lazy_witness :
  let run := vips__openslide_read_file filename_split good_slide "slide.svs:1"
               0 0 one_image in
  let w1 := snd run in
  filter (fun e => is_read_region e = true) (trace w1) =
    filter (fun e => is_read_region e = true) (trace one_image) /\
  buffers w1 = buffers one_image /\
  length (images w1) = S (length (images one_image)) /\
  locals (image_at w1 0) = locals VipsImage_new ++ [1%nat] /\
  close_cbs (image_at w1 1) = [0%nat] /\
  close_cbs (image_at w1 0) = close_cbs VipsImage_new /\
  generate_cb (image_at w1 1) = Some 0%nat /\
  cache_source <$> tile_cache (image_at w1 0) = Some 1%nat.
Proof.
  apply (read_file_lazy filename_split good_slide "slide.svs:1" 0%nat 0
           one_image (Ok tt)).
  - reflexivity.
  - vm_compute. reflexivity.
Defined.

(** X9.  The cache [vips__openslide_read_file] installs is sized from the
    width [W] of the image: with [n = 1 + W / 256], which is at least the
    number of tiles in a row, it holds [n + n / 2] tiles.  So a complete
    row of tiles always fits, as the comment at the call says; two
    complete rows, which the comment at the top of the function asks for,
    do not fit once the image is wider than 768 pixels. *)
Theorem read_file_cache_row split b filename out lyr w0 w1 im0 :
  images w0 !! out = Some im0 ->
  vips__openslide_read_file split b filename out lyr w0 = (Ok tt, w1) ->
  exists f c,
    fields (image_at w1 (length (images w0))) = Some f /\
    tile_cache (image_at w1 out) = Some c /\
    let W := Xsize f in
    let n := 1 + W / 256 in
    let row := (W + 255) / 256 in
    0 <= W <= INT_MAX /\
    row <= n /\
    max_tiles c = n + n / 2 /\
    row <= max_tiles c /\
    W < tile_width c * max_tiles c /\
    0 < max_tiles c <= INT_MAX /\
    (768 < W -> max_tiles c < 2 * row).
Proof.
  intros Him H.
  destruct (read_file_ok _ _ _ _ _ _ _ _ Him H) as (f & Hf & Hx & _ & Hc).
  exists f. eexists. split; [exact Hf|]. split; [exact Hc|].
  cbn [tile_width max_tiles]. rewrite tile_cache_max_tiles_eq by lia.
  unfold INT_MAX in *. cbv zeta.
  repeat split; try (Z.to_euclidean_division_equations; lia).
Qed.

Lemma read_file_cache_row_witness :
  let w1 := snd (vips__openslide_read_file filename_split good_slide
                   "slide.svs" 0 0 one_image) in
  exists f c,
    fields (image_at w1 (length (images one_image))) = Some f /\
    tile_cache (image_at w1 0) = Some c /\
    let W := Xsize f in
    let n := 1 + W / 256 in
    let row := (W + 255) / 256 in
    0 <= W <= INT_MAX /\
    row <= n /\
    max_tiles c = n + n / 2 /\
    row <= max_tiles c /\
    W < tile_width c * max_tiles c /\
    0 < max_tiles c <= INT_MAX /\
    (768 < W -> max_tiles c < 2 * row).
Proof.
  apply (read_file_cache_row filename_split good_slide "slide.svs" 0%nat 0
           one_image _ VipsImage_new).
  - reflexivity.
  - vm_compute. reflexivity.
Defined.

(** ** Reading an associated image to the end *)

Lemma offsets_lines (h : Z) : offsets h 1 = lines h.
Proof.
  unfold offsets, lines. rewrite Z.add_simpl_r, Z.div_1_r.
  apply map_ext. intros k. apply Z.mul_1_l.
Qed.

(** The loop that writes the lines: one [vips_image_write_line] per line,
    top to bottom, each from its offset [y * w] in the buffer. *)
Lemma write_lines_run out buf width (h : Z) (w : World) :
  exists w',
    for_loop (Z.to_nat h) 0 h 1
      (fun y => vips_image_write_line out y buf (y * width)) w = (Ok tt, w') /\
    trace w' = trace w ++
      map (fun y => EvWriteLine out y buf (y * width)) (lines h) /\
    same_store w w'.
Proof.
  rewrite for_loop_offsets by reflexivity. rewrite offsets_lines.
  assert (Hbody : forall y w2, exists w',
            vips_image_write_line out y buf (y * width) w2 = (Ok tt, w') /\
            trace w' = trace w2 ++ [EvWriteLine out y buf (y * width)] /\
            same_store w2 w' /\
            (oserror w' = None <-> oserror w2 = None /\ True)).
  { intros y w2. eexists. split; [reflexivity|].
    cbn [trace oserror emit]. split; [reflexivity|]. split; [done|]. tauto. }
  destruct (for_each_frame _ _ _ (lines h) Hbody w)
    as (w' & Hrun & Htr & Hs & _).
  exists w'. split; [exact Hrun|]. split; [|exact Hs].
  rewrite Htr. f_equal.
Qed.



(** X11.  Whatever [vips__openslide_read_associated] returns, the header
    of [out] is what it was: the fields, the metadata and the demand hint
    that [readslide_new] sets go to the local image [raw], and so does the
    handler that releases the slide.  [out] gains [raw] as a local image
    and, on success, the lines. *)
Theorem read_associated_header split b filename out name w0 r w1 im0 :
  images w0 !! out = Some im0 ->
  vips__openslide_read_associated split b filename out name w0 = (r, w1) ->
  let raw := length (images w0) in
  let im := image_at w1 out in
  (fields im = fields im0 /\ meta im = meta im0 /\ dhint im = dhint im0 /\
   generate_cb im = generate_cb im0 /\ tile_cache im = tile_cache im0 /\
   close_cbs im = close_cbs im0) /\
  locals im = locals im0 ++ [raw] /\
  close_cbs (image_at w1 raw) = [length (rslides w0)] /\
  length (images w1) = S (length (images w0)) /\
  (r = Ok tt -> fields (image_at w1 raw) <> None).
Proof.
  intros Him H.
  assert (Hout : (out < length (images w0))%nat)
    by (eapply lookup_lt_Some; eauto).
  wp_start H. unfold vips__openslide_read_associated.
  wp_run.
  all: try (apply wp_eval;
            match goal with
            | |- context [for_loop (Z.to_nat ?h) 0 ?h 1
                            (fun y => vips_image_write_line ?o y ?bf (y * ?wd))
                            ?w] =>
                destruct (write_lines_run o bf wd h w)
                  as (w' & Hrun & _ & Hs1 & _);
                rewrite Hrun; cbn [fst snd]; unfold image_at; rewrite Hs1;
                fold (image_at w0)
            end).
  all: cbv zeta; cbn [fst snd].
  all: wp_images Him.
  all: cbn [fields meta dhint close_cbs generate_cb tile_cache locals
            set_fields set_meta set_dhint add_close_cb set_generate_cb
            set_tile_cache add_local].
  all: try match goal with
       | |- context [foldl ?f ?im ?l] =>
           destruct (foldl_set_meta_fields (fun p => p)
                       (fun p => MetaString (openslide_get_property_value b p))
                       l im) as (Hf & _ & Hc & _);
           cbn beta in Hf, Hc; rewrite ?Hf, ?Hc; clear Hf Hc
       end.
  all: cbn [fields meta dhint close_cbs generate_cb tile_cache locals
            set_fields set_meta set_dhint add_close_cb set_generate_cb
            set_tile_cache add_local VipsImage_new app].
  all: split; [repeat split; reflexivity|].
  all: split; [reflexivity|].
  all: split; [reflexivity|].
  all: split;
       [repeat first [ rewrite length_alter | rewrite length_foldl_alter ];
        rewrite length_app, length_alter; cbn [length]; lia|].
  all: intros Hr; try discriminate Hr; discriminate.
Qed.

Lemma read_associated_header_witness :
  let run := vips__openslide_read_associated filename_split good_slide
               "slide.svs:macro" 0 None one_image in
  let w1 := snd run in
  let im := image_at w1 0 in
  (fields im = fields VipsImage_new /\ meta im = meta VipsImage_new /\
   dhint im = dhint VipsImage_new /\
   generate_cb im = generate_cb VipsImage_new /\
   tile_cache im = tile_cache VipsImage_new /\
   close_cbs im = close_cbs VipsImage_new) /\
  locals im = locals VipsImage_new ++ [1%nat] /\
  close_cbs (image_at w1 1) = [0%nat] /\
  length (images w1) = 2%nat /\
  (fst run = Ok tt -> fields (image_at w1 1) <> None).
Proof.
  apply (read_associated_header filename_split good_slide "slide.svs:macro"
           0%nat None one_image).
  - reflexivity.
  - vm_compute. reflexivity.
Defined.

(** X12.  When [vips__openslide_read_associated] fails with
    [ReadFailure], the handle held an error before the call or the decoding
    of the image left one.  The buffer had been allocated by then, the
    decoding and the query of the error are the last calls made, and no
    line was written. *)
Theorem read_associated_read_failure split b filename out name w0 w1 :
  vips__openslide_read_associated split b filename out name w0
    = (Err ReadFailure, w1) ->
  let a := associated (rslide_at w1 (length (rslides w0))) in
  (oserror w0 <> None \/ associated_error b a <> None) /\
  buffers w1 = S (buffers w0) /\
  (exists pre n,
     trace w1 = trace w0 ++ pre ++
       [EvArray (buffers w0) n; EvReadAssociated a (buffers w0);
        EvGetError]) /\
  filter (fun e => is_write_line e = true) (trace w1) =
    filter (fun e => is_write_line e = true) (trace w0).
Proof.
  intros H.
  change (match @Err unit ReadFailure with
          | Err ReadFailure =>
              let a := associated (rslide_at w1 (length (rslides w0))) in
              (oserror w0 <> None \/ associated_error b a <> None) /\
              buffers w1 = S (buffers w0) /\
              (exists pre n,
                 trace w1 = trace w0 ++ pre ++
                   [EvArray (buffers w0) n; EvReadAssociated a (buffers w0);
                    EvGetError]) /\
              filter (fun e => is_write_line e = true) (trace w1) =
                filter (fun e => is_write_line e = true) (trace w0)
          | _ => True
          end : Prop).
  wp_start H. unfold vips__openslide_read_associated.
  wp_run.
  all: try exact I.
  all: try (apply wp_eval;
            match goal with
            | |- context [for_loop (Z.to_nat ?h) 0 ?h 1
                            (fun y => vips_image_write_line ?o y ?bf (y * ?wd))
                            ?w] =>
                destruct (write_lines_run o bf wd h w)
                  as (w' & Hrun & _); rewrite Hrun; cbn [fst snd]; exact I
            end).
  all: cbv zeta; wp_heap.
  all: split; [first [ left; congruence | right; congruence ]|].
  all: split; [reflexivity|].
  all: split; [|rewrite ?filter_snoc_false by reflexivity; reflexivity].
  all: rewrite <- !app_assoc; cbn [app].
  all: first [ eexists [_; _]; eexists; reflexivity
             | eexists [_; _; _]; eexists; reflexivity ].
Qed.

Lemma read_associated_read_failure_witness :
  let w1 := snd (vips__openslide_read_associated filename_split
                   unreadable_slide "slide.svs:label" 0 None one_image) in
  let a := associated (rslide_at w1 (length (rslides one_image))) in
  (oserror one_image <> None \/ associated_error unreadable_slide a <> None) /\
  buffers w1 = S (buffers one_image) /\
  (exists pre n,
     trace w1 = trace one_image ++ pre ++
       [EvArray (buffers one_image) n;
        EvReadAssociated a (buffers one_image); EvGetError]) /\
  filter (fun e => is_write_line e = true) (trace w1) =
    filter (fun e => is_write_line e = true) (trace one_image).
Proof.
  apply (read_associated_read_failure filename_split unreadable_slide
           "slide.svs:label" 0%nat None one_image).
  vm_compute. reflexivity.
Defined.

(** ** fill_region on a region of one tile *)

Lemma buffer_after_snoc b (tr : list Event) (e : Event) :
  buffer_after b (tr ++ [e]) = apply_event b (buffer_after b tr) e.
Proof. unfold buffer_after. rewrite fold_left_app. reflexivity. Qed.

(** X13.  A region of at most one tile, the only kind the cache in front of
    [fill_region] asks for, is filled by one read of its whole rectangle.
    The buffer then holds what that read decodes and, outside the [width *
    height] pixels it writes, what it held.  When the lines of the buffer
    are as long as the region is wide, every pixel of the rectangle is at
    its address in the region. *)
Theorem fill_region_one_tile b out rslide w :
  let r := valid out in
  let rs := rslide_at w rslide in
  let run := fill_region b out rslide w in
  let X := double_to_int (double_mul (inject_Z (left r)) (downsample rs)) in
  let Y := double_to_int (double_mul (inject_Z (top r)) (downsample rs)) in
  0 < width r <= 256 -> 0 < height r <= 256 ->
  trace (snd run) =
    trace w ++ [EvReadRegion (VIPS_REGION_ADDR out (left r) (top r)) X Y
                  (layer rs) (width r) (height r); EvGetError] /\
  (forall a,
     buffer_after b (trace (snd run)) a =
     match single_read b out rs a with
     | Some px => Some px
     | None => buffer_after b (trace w) a
     end) /\
  (lskip out = width r ->
   forall i j, 0 <= i < width r -> 0 <= j < height r ->
     buffer_after b (trace (snd run))
       (VIPS_REGION_ADDR out (left r + i) (top r + j)) =
     Some (read_pixel b (layer rs) X Y i j)).
Proof.
  cbv zeta. intros Hw Hh.
  destruct (fill_region_single_tile b out rslide w Hw Hh) as [Htr _].
  unfold chunk_read in Htr. rewrite !Z.add_0_r in Htr.
  split; [exact Htr|].
  assert (Hbuf : forall a,
    buffer_after b (trace (snd (fill_region b out rslide w))) a =
    read_region_into b (VIPS_REGION_ADDR out (left (valid out)) (top (valid out)))
      (double_to_int (double_mul (inject_Z (left (valid out)))
                        (downsample (rslide_at w rslide))))
      (double_to_int (double_mul (inject_Z (top (valid out)))
                        (downsample (rslide_at w rslide))))
      (layer (rslide_at w rslide)) (width (valid out)) (height (valid out))
      (buffer_after b (trace w)) a).
  { intros a. rewrite Htr.
    change [?e1; ?e2] with ([e1] ++ [e2]).
    rewrite app_assoc, !buffer_after_snoc. reflexivity. }
  split.
  - intros a. rewrite Hbuf. unfold single_read, read_region_into.
    destruct (_ && _); reflexivity.
  - intros Hskip i j Hi Hj. rewrite Hbuf. unfold read_region_into.
    unfold VIPS_REGION_ADDR. rewrite Hskip.
    set (W := width (valid out)) in *. set (H := height (valid out)) in *.
    replace ((top (valid out) + j - top (valid out)) * W
             + (left (valid out) + i - left (valid out)))
      with (i + j * W) by lia.
    replace ((top (valid out) - top (valid out)) * W
             + (left (valid out) - left (valid out))) with 0 by lia.
    rewrite Z.sub_0_r, Z.add_0_l.
    assert (Hin : (0 <=? i + j * W) && (i + j * W <? W * H) = true).
    { apply andb_true_iff. split; [apply Z.leb_le|apply Z.ltb_lt]; nia. }
    rewrite Hin, Z.mod_add, Z.div_add, Z.mod_small, Z.div_small by lia.
    reflexivity.
Qed.

Lemma fill_region_one_tile_witness :
  let w := snd (readslide_new filename_split good_slide "slide.svs:1" 0
                  one_image) in
  let out := region_tile in
  let r := valid out in
  let rs := rslide_at w 0 in
  let run := fill_region good_slide out 0 w in
  let X := double_to_int (double_mul (inject_Z (left r)) (downsample rs)) in
  let Y := double_to_int (double_mul (inject_Z (top r)) (downsample rs)) in
  trace (snd run) =
    trace w ++ [EvReadRegion (VIPS_REGION_ADDR out (left r) (top r)) X Y
                  (layer rs) (width r) (height r); EvGetError] /\
  (forall a,
     buffer_after good_slide (trace (snd run)) a =
     match single_read good_slide out rs a with
     | Some px => Some px
     | None => buffer_after good_slide (trace w) a
     end) /\
  (lskip out = width r ->
   forall i j, 0 <= i < width r -> 0 <= j < height r ->
     buffer_after good_slide (trace (snd run))
       (VIPS_REGION_ADDR out (left r + i) (top r + j)) =
     Some (read_pixel good_slide (layer rs) X Y i j)).
Proof.
  apply (fill_region_one_tile good_slide region_tile 0%nat).
  - cbn. lia.
  - cbn. lia.
Defined.

(** ** The generator vips__openslide_read_file registers *)



